(** * Strided PSD spectrograms: the single-process builder and the
      multi-process dispatch wrapper of [gwpy/spectrogram/spectrogram.py]

    The development embeds [_from_timeseries] and [from_timeseries] as
    functions over an explicit data model and proves the properties the
    specification states about them.

    Numbers.  Python's floats are read as exact rationals ([Qc], canonical
    fractions, so that equal values are equal terms); Python's ints are [Z].
    Rounding error is therefore outside the model. *)

From Stdlib Require Import ZArith QArith Qcanon Qround Lia String.
From stdpp Require Import base numbers list sorting.

Local Open Scope Z_scope.

(** ** Python values, exceptions and arithmetic *)

Module Py.

Inductive exc := ZeroDivisionError | ValueError | KeyError | IndexError.

(** What a call does: it returns a value, it raises, or it never comes
    back (the coordinator of the worker processes waiting on its queue). *)
Inductive outcome (A : Type) :=
| Returns (a : A)
| Raises (e : exc)
| Blocks.
Global Arguments Returns {A} a.
Global Arguments Raises {A} e.
Global Arguments Blocks {A}.

Definition bind {A B} (f : A → outcome B) (c : outcome A) : outcome B :=
  match c with
  | Returns a => f a
  | Raises e => Raises e
  | Blocks => Blocks
  end.

Definition returned {A} (c : outcome A) : option A :=
  match c with Returns a => Some a | _ => None end.

(** [math.floor], [math.ceil] and [int] on a float. *)
Definition floor (x : Qc) : Z := Qfloor x.
Definition ceil (x : Qc) : Z := Qceiling x.
Definition int (x : Qc) : Z := if decide (x < 0)%Qc then ceil x else floor x.

(** [a / b] under [from __future__ import division]. *)
Definition truediv (a b : Qc) : outcome Qc :=
  if decide (b = 0%Qc) then Raises ZeroDivisionError else Returns (a / b)%Qc.

(** [a // b] on floats: the result is a whole-valued float, given here by
    its integer value (so that a later [int(...)] is the identity). *)
Definition floordiv (a b : Qc) : outcome Z :=
  if decide (b = 0%Qc) then Raises ZeroDivisionError else Returns (floor (a / b)%Qc).

(** [a // b] on ints: floored division, as [Z.div]. *)
Definition int_floordiv (a b : Z) : outcome Z :=
  if decide (b = 0) then Raises ZeroDivisionError else Returns (a / b).

(** [range(n)]. *)
Definition range (n : Z) : list Z := seqZ 0 n.

(** A [for] loop threading a value through a body that may raise. *)
Fixpoint for_each {A S} (body : S → A → outcome S) (s : S) (l : list A) : outcome S :=
  match l with
  | [] => Returns s
  | a :: l => bind (λ s', for_each body s' l) (body s a)
  end.

(** [list.sort(key=...)]: a stable sort on a rational key. *)
Fixpoint insert_on {A} (key : A → Qc) (x : A) (l : list A) : list A :=
  match l with
  | [] => [x]
  | y :: l' => if decide (key x ≤ key y)%Qc then x :: l else y :: insert_on key x l'
  end.

Definition sort_on {A} (key : A → Qc) (l : list A) : list A :=
  foldr (insert_on key) [] l.

(** Index bound of a slice [a[start:stop]] over [len] items: negative
    indices count from the end, and both ends are clipped. *)
Definition slice_bound (len i : Z) : Z :=
  if decide (i < 0) then Z.max 0 (i + len) else Z.min i len.

(** The items of [l[start:stop]]. *)
Definition slice {A} (l : list A) (start stop : Z) : list A :=
  let len := Z.of_nat (length l) in
  let lo := slice_bound len start in
  let hi := slice_bound len stop in
  take (Z.to_nat (hi - lo)) (drop (Z.to_nat lo) l).

End Py.

Import Py.

Global Instance outcome_bind : MBind outcome := @Py.bind.
Global Instance outcome_ret : MRet outcome := @Returns.

(** ** Data model *)

(** Physical units ([astropy.units]), channels, array element types, window
    functions and FFT plans: opaque values handed through. *)
Class Carriers := {
  Unit : Type;
  Channel : Type;
  DType : Type;
  Window : Type;
  Plan : Type
}.

Record TimeSeries `{Carriers} := {
  ts_data : list Qc;
  ts_sample_rate : Qc;
  ts_epoch : Qc;
  ts_unit : Unit;
  ts_channel : Channel;
  ts_dtype : DType
}.

(** [timeseries.size] *)
Definition ts_size `{Carriers} (ts : TimeSeries) : Z := Z.of_nat (length (ts_data ts)).

(** A two-dimensional array (time step, frequency bin) with its metadata.
    [sg_unit] is [None] as long as no unit has been assigned to the object
    after its construction. *)
Record Spectrogram `{Carriers} := {
  sg_rows : list (list Qc);
  sg_nfreqs : Z;
  sg_channel : Channel;
  sg_epoch : Qc;
  sg_f0 : Qc;
  sg_df : Qc;
  sg_dt : Qc;
  sg_unit : option Unit
}.

(** [out.shape] *)
Definition sg_shape `{Carriers} (sg : Spectrogram) : Z * Z :=
  (Z.of_nat (length (sg_rows sg)), sg_nfreqs sg).

(** ** Collaborators *)

Class Collaborators `{Carriers} := {
  (** [units.Hertz] *)
  Hertz : Unit;
  (** [u / v]: [None] when the quotient is undefined (the [KeyError] that
      the builder catches). *)
  unit_div : Unit → Unit → option Unit;
  (** [1 / u] *)
  unit_recip : Unit → Unit;
  (** The position a float denotes when it is used as an array index.  The
      array layer that decides it is not part of the sources. *)
  to_index : Qc → Z;
  (** [timeseries.psd(fftlength, fftstride, method, window=, plan=)]: the
      [.data] of the spectrum the collaborator returns. *)
  psd : TimeSeries → Qc → Qc → string → option Window → option Plan → list Qc;
  (** [from lal import lal] may fail; when it succeeds, a window and an FFT
      plan of [nFFT] points can be generated. *)
  lal_importable : bool;
  generate_lal_window : Z → DType → Window;
  generate_lal_fft_plan : Z → DType → Plan
}.

(** Modelled from the spec: [TimeSeries.__getitem__] on a slice is missing
    from the sources.  The spec gives a time series as an ordered sequence
    of samples at a fixed rate with an epoch and a unit, sliced by index
    range: the slice keeps rate, unit, channel and element type, holds the
    samples of the range, and starts [start] samples after the epoch. *)
Definition ts_getitem `{Collaborators} (ts : TimeSeries) (start stop : Qc) : TimeSeries :=
  {| ts_data := slice (ts_data ts) (to_index start) (to_index stop);
     ts_sample_rate := ts_sample_rate ts;
     ts_epoch := (ts_epoch ts + start / ts_sample_rate ts)%Qc;
     ts_unit := ts_unit ts;
     ts_channel := ts_channel ts;
     ts_dtype := ts_dtype ts |}.

(** [numpy.zeros((n, m))]: negative dimensions are refused. *)
Definition zeros (n m : Z) : outcome (list (list Qc)) :=
  if decide (n < 0 ∨ m < 0) then Raises ValueError
  else Returns (replicate (Z.to_nat n) (replicate (Z.to_nat m) 0%Qc)).

(** The object with its array replaced. *)
Definition sg_with_rows `{Carriers} (out : Spectrogram) (rows : list (list Qc)) : Spectrogram :=
  {| sg_rows := rows; sg_nfreqs := sg_nfreqs out; sg_channel := sg_channel out;
     sg_epoch := sg_epoch out; sg_f0 := sg_f0 out; sg_df := sg_df out;
     sg_dt := sg_dt out; sg_unit := sg_unit out |}.

(** [out[step] = data] for a one-dimensional [data]: a step outside the
    array is refused (a negative one counts from the end); the row is
    replaced when the lengths agree, a single value is broadcast along the
    row, and any other length is refused. *)
Definition sg_setitem `{Carriers} (out : Spectrogram) (step : Z) (data : list Qc)
    : outcome Spectrogram :=
  let n := Z.of_nat (length (sg_rows out)) in
  if decide (step < - n ∨ n ≤ step) then Raises IndexError else
  let row := Z.to_nat (if decide (step < 0) then step + n else step) in
  if decide (Z.of_nat (length data) = sg_nfreqs out)
  then Returns (sg_with_rows out (<[row := data]> (sg_rows out)))
  else match data with
       | [x] => Returns (sg_with_rows out
                  (<[row := replicate (Z.to_nat (sg_nfreqs out)) x]> (sg_rows out)))
       | _ => Raises ValueError
       end.

(** [out.unit = u] *)
Definition sg_set_unit `{Carriers} (out : Spectrogram) (u : Unit) : Spectrogram :=
  {| sg_rows := sg_rows out; sg_nfreqs := sg_nfreqs out;
     sg_channel := sg_channel out; sg_epoch := sg_epoch out;
     sg_f0 := sg_f0 out; sg_df := sg_df out; sg_dt := sg_dt out;
     sg_unit := Some u |}.

(** ** The single-process builder *)

Definition _from_timeseries `{Collaborators} (timeseries : TimeSeries) (stride : Qc)
    (fftlength fftstride : option Qc) (method : string)
    (window : option Window) (plan : option Plan) : outcome Spectrogram :=
  (* format FFT parameters *)
  let fftlength := default stride fftlength in
  let fftstride := default fftlength fftstride in
  let dt := stride in
  df ← truediv 1%Qc fftlength;
  let stride := (stride * ts_sample_rate timeseries)%Qc in
  (* get size of spectrogram *)
  nsteps ← floordiv (Qc_of_Z (ts_size timeseries)) stride;
  half ← floordiv (fftlength * ts_sample_rate timeseries)%Qc 2%Qc;
  let nfreqs := half + 1 in
  (* generate output spectrogram *)
  data ← zeros nsteps nfreqs;
  let out := {| sg_rows := data; sg_nfreqs := nfreqs;
                sg_channel := ts_channel timeseries;
                sg_epoch := ts_epoch timeseries;
                sg_f0 := 0%Qc; sg_df := df; sg_dt := dt; sg_unit := None |} in
  if decide (nsteps = 0) then Returns out else
  (* stride through TimeSeries, recording PSDs as rows of spectrogram *)
  out ← for_each (λ out step,
           let idx := (stride * Qc_of_Z step)%Qc in
           let idx_end := (idx + stride)%Qc in
           let stepseries := ts_getitem timeseries idx idx_end in
           let steppsd := psd stepseries fftlength fftstride method window plan in
           sg_setitem out step steppsd) out (range nsteps);
  (* set unit and return *)
  match unit_div (ts_unit timeseries) Hertz with
  | Some u => Returns (sg_set_unit out u)
  | None => Returns (sg_set_unit out (unit_recip Hertz))
  end.

(** ** The parallel dispatch wrapper *)

(** What a call of the wrapper does: the slices handed to the worker
    processes it started (in the order of their start), the capacity of the
    result queue when one was created, and the outcome of the call. *)
Record Run `{Carriers} := {
  run_started : list TimeSeries;
  run_queue : option Z;
  run_result : outcome Spectrogram
}.

Definition without_workers `{Carriers} (r : outcome Spectrogram) : Run :=
  {| run_started := []; run_queue := None; run_result := r |}.

(** The window and the plan after the block that generates them when the
    [lal] import succeeds and the argument was left out. *)
Definition lal_window `{Collaborators} (nFFT : Z) (timeseries : TimeSeries)
    (window : option Window) : option Window :=
  if lal_importable
  then Some (default (generate_lal_window nFFT (ts_dtype timeseries)) window)
  else window.

Definition lal_plan `{Collaborators} (nFFT : Z) (timeseries : TimeSeries)
    (plan : option Plan) : option Plan :=
  if lal_importable
  then Some (default (generate_lal_fft_plan nFFT (ts_dtype timeseries)) plan)
  else plan.

(** [timeseries[i * nsamp:(i + 1) * nsamp]] for [i] in [range(nproc)]. *)
Definition worker_slices `{Collaborators} (timeseries : TimeSeries) (nproc : Z) (nsamp : Qc)
    : list TimeSeries :=
  (λ i, ts_getitem timeseries (Qc_of_Z i * nsamp)%Qc (Qc_of_Z (i + 1) * nsamp)%Qc)
    <$> range nproc.

(** [data = [queue.get() for p in processlist]]: one result per started
    worker, in the order in which the workers finish ([finish i] is the
    time at which worker [i] puts its result; ties keep the start order).
    A worker that raises puts nothing, and the coordinator waits on the
    queue for ever. *)
Definition collect `{Carriers} (finish : nat → Qc) (results : list (outcome Spectrogram))
    : outcome (list Spectrogram) :=
  match mapM returned results with
  | Some specs =>
      Returns (snd <$> sort_on (λ p, finish (fst p)) (imap pair specs))
  | None => Blocks
  end.

(** Modelled from the spec: [SpectrogramList.join] is missing from the
    sources.  The spec gives the merge of partial spectrograms as the
    concatenation of their rows in list order; the metadata is that of the
    first one. *)
Definition sg_join `{Carriers} (first : Spectrogram) (rest : list Spectrogram) : Spectrogram :=
  sg_with_rows first (sg_rows first ++ concat (sg_rows <$> rest)).

(** The [SpectrogramList] of the collected data, sorted in place on the
    epoch and joined (the list holds one entry per worker, and there is at
    least one). *)
Definition sort_and_join `{Carriers} (data : list Spectrogram) : outcome Spectrogram :=
  match sort_on sg_epoch data with
  | [] => Raises ValueError
  | first :: rest => Returns (sg_join first rest)
  end.

Definition from_timeseries `{Collaborators} (timeseries : TimeSeries) (stride : Qc)
    (fftlength fftstride : option Qc) (method : string)
    (window : option Window) (plan : option Plan)
    (maxprocesses minprocesssize : Z) (finish : nat → Qc) : Run :=
  (* format FFT parameters *)
  let fftlength := default stride fftlength in
  let fftstride := default fftlength fftstride in
  (* get size of spectrogram *)
  let nFFT := int (fftlength * ts_sample_rate timeseries)%Qc in
  match floordiv (Qc_of_Z (ts_size timeseries)) (stride * ts_sample_rate timeseries)%Qc with
  | Raises e => without_workers (Raises e)
  | Blocks => without_workers Blocks
  | Returns nsteps =>
    let nfreqs := nFFT / 2 + 1 in
    (* generate window and plan if needed *)
    let window := lal_window nFFT timeseries window in
    let plan := lal_plan nFFT timeseries plan in
    (* single-process return *)
    if decide (maxprocesses = 1 ∨ nsteps = 0) then
      without_workers
        (_from_timeseries timeseries stride (Some fftlength) (Some fftstride)
           method window None)
    else
    (* wrap spectrogram generator *)
    let _specgram (ts : TimeSeries) :=
      _from_timeseries ts stride (Some fftlength) (Some fftstride) method window plan in
    (* otherwise build process list *)
    match int_floordiv nsteps minprocesssize with
    | Raises e => {| run_started := []; run_queue := Some maxprocesses; run_result := Raises e |}
    | Blocks => {| run_started := []; run_queue := Some maxprocesses; run_result := Blocks |}
    | Returns q =>
      let nproc := Z.max 1 q in
      let stepperproc := ceil (Qc_of_Z nsteps / Qc_of_Z nproc)%Qc in
      let nsamp := (Qc_of_Z stepperproc * ts_sample_rate timeseries * stride)%Qc in
      let processlist := worker_slices timeseries nproc nsamp in
      {| run_started := processlist;
         run_queue := Some maxprocesses;
         run_result :=
           (* get data and block *)
           data ← collect finish (_specgram <$> processlist);
           (* format and return *)
           sort_and_join data |}
    end
  end.

(** ** Vocabulary of the statements *)

(** Number of frequency bins of a spectrum of FFT length [fftlength] at
    sample rate [rate]. *)
Definition nfreqs_of (fftlength rate : Qc) : Z := floor (fftlength * rate / 2)%Qc + 1.

(** The collaborator returns spectra of that many bins. *)
Definition psd_bins `{Collaborators} : Prop :=
  ∀ t fl fs m w p,
    length (psd t fl fs m w p) = Z.to_nat (nfreqs_of fl (ts_sample_rate t)).

(** A whole-valued float used as an index denotes that position. *)
Definition whole_index `{Collaborators} : Prop :=
  ∀ z, to_index (Qc_of_Z z) = z.

(** The sub-series of [S] samples that starts at sample [step * S]: the
    stretch of stride number [step] when a stride holds [S] samples. *)
Definition stride_series `{Carriers} (ts : TimeSeries) (S step : Z) : TimeSeries :=
  {| ts_data := take (Z.to_nat S) (drop (Z.to_nat (step * S)) (ts_data ts));
     ts_sample_rate := ts_sample_rate ts;
     ts_epoch := (ts_epoch ts + Qc_of_Z (step * S) / ts_sample_rate ts)%Qc;
     ts_unit := ts_unit ts;
     ts_channel := ts_channel ts;
     ts_dtype := ts_dtype ts |}.

(** The unit the builder assigns at its end. *)
Definition derived_unit `{Collaborators} (ts : TimeSeries) : Unit :=
  default (unit_recip Hertz) (unit_div (ts_unit ts) Hertz).

(** The start times of the rows of a spectrogram, and of a list of them
    laid end to end. *)
Definition row_times `{Carriers} (sg : Spectrogram) : list Qc :=
  imap (λ k _, (sg_epoch sg + Qc_of_Z (Z.of_nat k) * sg_dt sg)%Qc) (sg_rows sg).

Definition time_axis `{Carriers} (l : list Spectrogram) : list Qc :=
  concat (row_times <$> l).

(** The spectrogram of worker [i] when a stride holds [S] samples and each
    worker is given [c] strides: the rows of strides [i * c], [i * c + 1],
    ... as far as the series reaches, starting [i * c * S] samples after the
    epoch. *)
Definition partial_of `{Collaborators} (ts : TimeSeries) (stride fl fs : Qc)
    (method : string) (window : option Window) (plan : option Plan) (S c i : Z) : Spectrogram :=
  let n_i := Z.max 0 (Z.min c (ts_size ts / S - i * c)) in
  {| sg_rows := (λ k, psd (stride_series ts S (i * c + k)) fl fs method window plan)
                  <$> range n_i;
     sg_nfreqs := nfreqs_of fl (ts_sample_rate ts);
     sg_channel := ts_channel ts;
     sg_epoch := (ts_epoch ts + Qc_of_Z (i * (c * S)) / ts_sample_rate ts)%Qc;
     sg_f0 := 0%Qc;
     sg_df := (1 / fl)%Qc;
     sg_dt := stride;
     sg_unit := if decide (n_i = 0) then None else Some (derived_unit ts) |}.

(** ** Concrete collaborators and inputs for the examples *)

Definition text_carriers : Carriers :=
  {| Unit := string; Channel := string; DType := string;
     Window := string; Plan := string |}.

(** A collaborator set over names: the quotient of a unit without a name is
    undefined; a float index is truncated; a spectrum holds in every bin
    the sum of the samples, plus one when a plan was handed over; [lal] is
    not installed. *)
Definition probe : @Collaborators text_carriers :=
  @Build_Collaborators text_carriers
    (* Hertz *) "Hz"%string
    (* unit_div *)
    (λ u v : string,
       match u with
       | EmptyString => None
       | _ => Some (String.append u (String.append "/" v))
       end)
    (* unit_recip *) (λ v : string, String.append "1/" v)
    (* to_index *) int
    (* psd *)
    (λ (t : @TimeSeries text_carriers) fl fs m w p,
       replicate (Z.to_nat (nfreqs_of fl (ts_sample_rate t)))
         (foldr Qcplus (match p with Some _ => 1%Qc | None => 0%Qc end) (ts_data t)))
    (* lal_importable *) false
    (* generate_lal_window *) (λ _ _, "window"%string)
    (* generate_lal_fft_plan *) (λ _ _, "plan"%string).

(** The samples [0, 1, ..., n - 1] at [rate] Hz, starting at epoch 0. *)
Definition ramp (n rate : Z) (unit : string) : @TimeSeries text_carriers :=
  @Build_TimeSeries text_carriers
    (Qc_of_Z <$> seqZ 0 n) (Qc_of_Z rate) 0%Qc unit "X1:TEST"%string "float64"%string.

(** Ten seconds at 100 Hz; one second at 100 Hz, in a given unit; eleven
    samples and three thousand samples at 1 Hz. *)
Definition ten_seconds : @TimeSeries text_carriers := ramp 1000 100 "m".
Definition one_second (unit : string) : @TimeSeries text_carriers := ramp 100 100 unit.
Definition eleven_samples : @TimeSeries text_carriers := ramp 11 1 "m".
Definition long_series : @TimeSeries text_carriers := ramp 3000 1 "m".

(** Fourteen and fifteen samples at 1 Hz, for strides of a second and a
    half. *)
Definition fourteen_samples : @TimeSeries text_carriers := ramp 14 1 "m".
Definition fifteen_samples : @TimeSeries text_carriers := ramp 15 1 "m".

(** The series with further samples recorded after its last one. *)
Definition ts_append `{Carriers} (ts : TimeSeries) (more : list Qc) : TimeSeries :=
  {| ts_data := ts_data ts ++ more;
     ts_sample_rate := ts_sample_rate ts;
     ts_epoch := ts_epoch ts;
     ts_unit := ts_unit ts;
     ts_channel := ts_channel ts;
     ts_dtype := ts_dtype ts |}.

(** A second collaborator set over names, with [lal] installed and spectra
    that hold the sum of the samples in every bin, whatever the plan. *)
Definition plain : @Collaborators text_carriers :=
  @Build_Collaborators text_carriers
    (* Hertz *) "Hz"%string
    (* unit_div *)
    (λ u v : string,
       match u with
       | EmptyString => None
       | _ => Some (String.append u (String.append "/" v))
       end)
    (* unit_recip *) (λ v : string, String.append "1/" v)
    (* to_index *) int
    (* psd *)
    (λ (t : @TimeSeries text_carriers) fl fs m w p,
       replicate (Z.to_nat (nfreqs_of fl (ts_sample_rate t)))
         (foldr Qcplus 0%Qc (ts_data t)))
    (* lal_importable *) true
    (* generate_lal_window *) (λ _ _, "window"%string)
    (* generate_lal_fft_plan *) (λ _ _, "plan"%string).

(** A third collaborator set over names, with [lal] installed and spectra
    that tell what they were computed with: every bin holds the sum of the
    samples, plus one when a plan was handed over and plus two when a window
    was. *)
Definition lal_probe : @Collaborators text_carriers :=
  @Build_Collaborators text_carriers
    (* Hertz *) "Hz"%string
    (* unit_div *)
    (λ u v : string,
       match u with
       | EmptyString => None
       | _ => Some (String.append u (String.append "/" v))
       end)
    (* unit_recip *) (λ v : string, String.append "1/" v)
    (* to_index *) int
    (* psd *)
    (λ (t : @TimeSeries text_carriers) fl fs m w p,
       replicate (Z.to_nat (nfreqs_of fl (ts_sample_rate t)))
         (foldr Qcplus
            ((match p with Some _ => 1%Qc | None => 0%Qc end)
             + (match w with Some _ => Qc_of_Z 2 | None => 0%Qc end))%Qc
            (ts_data t)))
    (* lal_importable *) true
    (* generate_lal_window *) (λ _ _, "window"%string)
    (* generate_lal_fft_plan *) (λ _ _, "plan"%string).

(** The first bin of the first row of a returned spectrogram, as a plain
    fraction. *)
Definition first_bin `{Carriers} (r : outcome Spectrogram) : option Q :=
  match r with
  | Returns sg => this <$> (sg_rows sg !! 0%nat ≫= λ row, row !! 0%nat)
  | _ => None
  end.

(** ** Facts about the arithmetic *)

Section Arithmetic.

Local Open Scope Qc_scope.

Lemma floor_whole (z : Z) : floor (Qc_of_Z z) = z.
Proof. unfold floor. simpl. apply Qfloor_Z. Qed.

Lemma floor_div_whole (a b : Z) : floor (Qc_of_Z a / Qc_of_Z b) = (a / b)%Z.
Proof.
  unfold floor. rewrite Zdiv_Qdiv.
  apply Qfloor_comp. simpl.
  rewrite !Qred_correct. reflexivity.
Qed.

Lemma ceil_div_whole (a b : Z) : ceil (Qc_of_Z a / Qc_of_Z b) = (- ((- a) / b))%Z.
Proof.
  unfold ceil, Qceiling. f_equal. rewrite Zdiv_Qdiv.
  apply Qfloor_comp. simpl.
  rewrite !Qred_correct. rewrite inject_Z_opp. unfold Qdiv. ring.
Qed.

Lemma Qc_of_Z_eq_0 (z : Z) : Qc_of_Z z = 0 ↔ z = 0%Z.
Proof. rewrite <- Z2Qc_inj_0. apply Z2Qc_inj_iff. Qed.

Lemma Qc_of_Z_pos (z : Z) : (0 < z)%Z → 0 < Qc_of_Z z.
Proof. intros Hz. rewrite <- Z2Qc_inj_0. by apply (proj1 (Z2Qc_inj_lt 0 z)). Qed.

Lemma Qc_pos_ne_0 (x : Qc) : 0 < x → x ≠ 0.
Proof. intros Hx ->. by apply (Qclt_not_eq 0 0). Qed.

(** [floordiv] and [truediv] away from a zero divisor. *)
Lemma floordiv_ne_0 (a b : Qc) : b ≠ 0 → floordiv a b = Returns (floor (a / b)).
Proof. intros Hb. unfold floordiv. by rewrite decide_False. Qed.

Lemma truediv_ne_0 (a b : Qc) : b ≠ 0 → truediv a b = Returns (a / b).
Proof. intros Hb. unfold truediv. by rewrite decide_False. Qed.

Lemma floordiv_returns (a b : Qc) (n : Z) :
  floordiv a b = Returns n → b ≠ 0 ∧ n = floor (a / b).
Proof. unfold floordiv. case_decide; [done|]. by intros [= <-]. Qed.

Lemma two_ne_0 : (2 : Qc) ≠ 0.
Proof. apply Qc_pos_ne_0. by apply Qcplus_pos_pos. Qed.

(** The floor of a non-negative value is non-negative. *)
Lemma floor_nonneg (x : Qc) : 0 ≤ x → (0 ≤ floor x)%Z.
Proof.
  intros Hx. unfold floor. change 0%Z with (Qfloor 0).
  by apply Qfloor_resp_le.
Qed.

Lemma Qcdiv_nonneg (x y : Qc) : 0 ≤ x → 0 < y → 0 ≤ x / y.
Proof.
  intros Hx Hy. unfold Qcdiv.
  apply Qcmult_nonneg_nonneg; [done|]. apply Qclt_le_weak. by apply Qcinv_pos.
Qed.

End Arithmetic.

(** ** Facts about slices, loops and the builder *)

Lemma slice_take_drop {A} (l : list A) (a b : Z) :
  0 ≤ a ≤ b → slice l a b = take (Z.to_nat (b - a)) (drop (Z.to_nat a) l).
Proof.
  intros Hab. unfold slice, slice_bound.
  rewrite !decide_False by lia.
  destruct (decide (a ≤ Z.of_nat (length l))) as [Ha|Ha].
  - rewrite (Z.min_l a) by lia.
    apply list_eq. intros i. rewrite !lookup_take, !lookup_drop.
    destruct (decide (Z.of_nat (length l) ≤ b)).
    + rewrite Z.min_r by lia. repeat case_decide; try done; try lia.
      all: try (symmetry; apply lookup_ge_None; lia).
      all: try (apply lookup_ge_None; lia).
    + rewrite Z.min_l by lia. done.
  - rewrite (Z.min_r a) by lia.
    rewrite !drop_ge by lia. by rewrite !take_nil.
Qed.

Section Builder.

Context `{Collaborators}.

Lemma range_seq (n : Z) : range n = Z.of_nat <$> seq 0 (Z.to_nat n).
Proof.
  unfold range, seqZ. apply list_fmap_ext. intros i x _. lia.
Qed.

Lemma for_each_ext {A S} (f g : S → A → outcome S) (s : S) (l : list A) :
  (∀ s a, f s a = g s a) → for_each f s l = for_each g s l.
Proof.
  intros Hfg. revert s. induction l as [|a l IH]; intros s; [done|].
  cbn [for_each]. rewrite Hfg. destruct (g s a); cbn [bind]; auto.
Qed.

Lemma sg_setitem_bins (out : Spectrogram) (step : Z) (data : list Qc) :
  0 ≤ step < Z.of_nat (length (sg_rows out)) →
  Z.of_nat (length data) = sg_nfreqs out →
  sg_setitem out step data
  = Returns (sg_with_rows out (<[Z.to_nat step := data]> (sg_rows out))).
Proof.
  intros Hstep Hd. unfold sg_setitem.
  rewrite decide_False by lia. rewrite (decide_False (P := step < 0)) by lia.
  by rewrite decide_True.
Qed.

Lemma for_each_rows (out : Spectrogram) (f : Z → list Qc) (m k : nat) (rows : list (list Qc)) :
  length rows = (k + m)%nat →
  (∀ i, (k ≤ i < k + m)%nat → Z.of_nat (length (f (Z.of_nat i))) = sg_nfreqs out) →
  for_each (λ o step, sg_setitem o step (f step)) (sg_with_rows out rows)
           (Z.of_nat <$> seq k m)
  = Returns (sg_with_rows out (take k rows ++ (f <$> (Z.of_nat <$> seq k m)))).
Proof.
  revert k rows. induction m as [|m IH]; intros k rows Hlen Hf.
  - simpl. rewrite app_nil_r, take_ge by lia. done.
  - cbn [seq]. rewrite !fmap_cons. cbn [for_each].
    rewrite sg_setitem_bins by (cbn [sg_rows sg_with_rows]; first [lia | apply Hf; lia]).
    cbn [bind sg_rows sg_with_rows]. rewrite Nat2Z.id.
    change (sg_with_rows (sg_with_rows out rows) ?r) with (sg_with_rows out r).
    rewrite IH.
    + f_equal. f_equal.
      rewrite (take_S_r _ _ (f (Z.of_nat k))).
      * rewrite take_insert_ge by lia. by rewrite <- app_assoc.
      * apply list_lookup_insert_eq. lia.
    + rewrite length_insert. lia.
    + intros i Hi. apply Hf. lia.
Qed.

Lemma zeros_nonneg (n m : Z) :
  0 ≤ n → 0 ≤ m →
  zeros n m = Returns (replicate (Z.to_nat n) (replicate (Z.to_nat m) 0%Qc)).
Proof. intros Hn Hm. unfold zeros. rewrite decide_False by lia. done. Qed.

Lemma builder_returns (ts : TimeSeries) (stride : Qc) (fftlength fftstride : option Qc)
    (method : string) (window : option Window) (plan : option Plan) :
  let fl := default stride fftlength in
  let fs := default fl fftstride in
  let s := (stride * ts_sample_rate ts)%Qc in
  let nsteps := floor (Qc_of_Z (ts_size ts) / s)%Qc in
  psd_bins → fl ≠ 0%Qc → s ≠ 0%Qc → 0 ≤ nsteps → 0 ≤ nfreqs_of fl (ts_sample_rate ts) →
  _from_timeseries ts stride fftlength fftstride method window plan
  = Returns
      {| sg_rows :=
           (λ step, psd (ts_getitem ts (s * Qc_of_Z step)%Qc (s * Qc_of_Z step + s)%Qc)
                        fl fs method window plan) <$> range nsteps;
         sg_nfreqs := nfreqs_of fl (ts_sample_rate ts);
         sg_channel := ts_channel ts;
         sg_epoch := ts_epoch ts;
         sg_f0 := 0%Qc;
         sg_df := (1 / fl)%Qc;
         sg_dt := stride;
         sg_unit := if decide (nsteps = 0) then None else Some (derived_unit ts) |}.
Proof.
  intros fl fs s nsteps Hpsd Hfl Hs Hn Hnf.
  unfold _from_timeseries. fold fl. fold fs. fold s.
  unfold mbind, outcome_bind.
  rewrite truediv_ne_0 by done. cbn [bind].
  rewrite (floordiv_ne_0 _ s) by done. fold nsteps. cbn [bind].
  rewrite (floordiv_ne_0 _ 2%Qc) by apply two_ne_0. cbn [bind].
  change (floor (fl * ts_sample_rate ts / 2)%Qc + 1) with (nfreqs_of fl (ts_sample_rate ts)).
  rewrite zeros_nonneg by done. cbn [bind].
  case_decide as Hz.
  - rewrite Hz. done.
  - set (out := Build_Spectrogram _ _ _ _ _ _ _ _ _).
    rewrite range_seq.
    pose proof (for_each_rows out
      (λ step, psd (ts_getitem ts (s * Qc_of_Z step)%Qc (s * Qc_of_Z step + s)%Qc)
                   fl fs method window plan)
      (Z.to_nat nsteps) 0 (sg_rows out)) as Hloop.
    change (sg_with_rows out (sg_rows out)) with out in Hloop.
    rewrite Hloop; clear Hloop.
    + cbn [bind]. unfold derived_unit. rewrite take_0, app_nil_l.
      destruct (unit_div (ts_unit ts) Hertz); done.
    + subst out. cbn [sg_rows]. rewrite length_replicate. lia.
    + intros i _. rewrite Hpsd. subst out. cbn [sg_nfreqs ts_getitem ts_sample_rate]. lia.
Qed.

(** A collaborator whose spectra do not depend on the plan makes the builder
    independent of it. *)
Lemma builder_plan_irrelevant (ts : TimeSeries) (stride : Qc)
    (fftlength fftstride : option Qc)
    (method : string) (window : option Window) (plan plan' : option Plan) :
  (∀ t fl fs m w, psd t fl fs m w plan = psd t fl fs m w plan') →
  _from_timeseries ts stride fftlength fftstride method window plan
  = _from_timeseries ts stride fftlength fftstride method window plan'.
Proof.
  intros Hpsd. unfold _from_timeseries, mbind, outcome_bind.
  destruct (truediv _ _); cbn [bind]; [|done..].
  destruct (floordiv _ _); cbn [bind]; [|done..].
  destruct (floordiv _ _); cbn [bind]; [|done..].
  destruct (zeros _ _); cbn [bind]; [|done..].
  case_decide; [done|].
  erewrite for_each_ext; [done|].
  intros s step. cbn beta zeta. by rewrite Hpsd.
Qed.

Lemma nfreqs_of_pos (fl rate : Qc) : (0 < fl)%Qc → (0 < rate)%Qc → 0 < nfreqs_of fl rate.
Proof.
  intros Hfl Hr. unfold nfreqs_of.
  assert (0 ≤ floor (fl * rate / 2)%Qc); [|lia].
  apply floor_nonneg, Qcdiv_nonneg.
  - apply Qclt_le_weak. by apply Qcmult_pos_pos.
  - by apply Qcplus_pos_pos.
Qed.

Lemma ts_getitem_stride (ts : TimeSeries) (a b : Qc) (S step : Z) :
  whole_index → 0 ≤ S → 0 ≤ step →
  a = Qc_of_Z (step * S) → b = Qc_of_Z (step * S + S) →
  ts_getitem ts a b = stride_series ts S step.
Proof.
  intros Hidx HS Hstep -> ->. unfold ts_getitem, stride_series.
  rewrite !Hidx, slice_take_drop by lia.
  do 3 f_equal. lia.
Qed.

Lemma builder_whole (ts : TimeSeries) (stride : Qc) (fftlength fftstride : option Qc)
    (method : string) (window : option Window) (plan : option Plan) (S : Z) :
  let fl := default stride fftlength in
  let fs := default fl fftstride in
  let nsteps := ts_size ts / S in
  psd_bins → whole_index →
  fl ≠ 0%Qc → 0 ≤ nfreqs_of fl (ts_sample_rate ts) →
  (stride * ts_sample_rate ts)%Qc = Qc_of_Z S → 0 < S →
  _from_timeseries ts stride fftlength fftstride method window plan
  = Returns
      {| sg_rows := (λ step, psd (stride_series ts S step) fl fs method window plan)
                      <$> range nsteps;
         sg_nfreqs := nfreqs_of fl (ts_sample_rate ts);
         sg_channel := ts_channel ts;
         sg_epoch := ts_epoch ts;
         sg_f0 := 0%Qc;
         sg_df := (1 / fl)%Qc;
         sg_dt := stride;
         sg_unit := if decide (nsteps = 0) then None else Some (derived_unit ts) |}.
Proof.
  intros fl fs nsteps Hpsd Hidx Hfl Hnf HS Hpos.
  assert (0 ≤ nsteps) as Hn by (apply Z.div_pos; unfold ts_size; lia).
  rewrite builder_returns; try done; fold fl; fold fs; rewrite HS, ?floor_div_whole; try done.
  - fold nsteps. f_equal. f_equal.
    apply list_fmap_ext. intros i step Hi.
    apply lookup_seqZ in Hi as [-> Hi].
    f_equal. apply ts_getitem_stride; try done; try lia.
    + rewrite <- Z2Qc_inj_mul. f_equal. lia.
    + rewrite <- Z2Qc_inj_mul, <- Z2Qc_inj_add. f_equal. lia.
  - rewrite Qc_of_Z_eq_0. lia.
Qed.

Lemma ts_size_stride_series (ts : TimeSeries) (N i : Z) :
  0 ≤ N → 0 ≤ i →
  ts_size (stride_series ts N i) = Z.max 0 (Z.min N (ts_size ts - i * N)).
Proof.
  intros HN Hi. unfold ts_size, stride_series. cbn [ts_data].
  rewrite length_take, length_drop. lia.
Qed.

Lemma stride_series_nested (ts : TimeSeries) (S c i k : Z) :
  ts_sample_rate ts ≠ 0%Qc → 0 < S → 0 ≤ i → 0 ≤ k < c →
  stride_series (stride_series ts (c * S) i) S k = stride_series ts S (i * c + k).
Proof.
  intros HR HS Hi Hk. unfold stride_series. cbn [ts_data ts_sample_rate ts_epoch ts_unit ts_channel ts_dtype].
  f_equal.
  - rewrite skipn_firstn_comm, take_take, drop_drop.
    assert (k * S + S ≤ c * S) by nia.
    assert (0 ≤ k * S) by nia.
    assert (0 ≤ i * (c * S)) by nia.
    f_equal; [|f_equal]; lia.
  - replace (Qc_of_Z ((i * c + k) * S)) with (Qc_of_Z (i * (c * S)) + Qc_of_Z (k * S))%Qc.
    + field. done.
    + rewrite <- Z2Qc_inj_add. f_equal. lia.
Qed.
End Builder.

(** ** Facts about sorting, the partition and the dispatch *)

Section Sorting.

Context {A : Type} (key : A → Qc).

Lemma key_le_transitive : Transitive (λ a b : A, (key a ≤ key b)%Qc).
Proof. intros a b c. apply Qcle_trans. Qed.

Lemma insert_on_perm (x : A) (l : list A) : insert_on key x l ≡ₚ x :: l.
Proof.
  induction l as [|y l IH]; [done|]. simpl. case_decide; [done|].
  rewrite IH. apply Permutation_swap.
Qed.

Lemma sort_on_perm (l : list A) : sort_on key l ≡ₚ l.
Proof.
  induction l as [|x l IH]; [done|]. unfold sort_on in *. simpl.
  rewrite insert_on_perm. by rewrite IH.
Qed.

Lemma insert_on_sorted (x : A) (l : list A) :
  Sorted (λ a b, (key a ≤ key b)%Qc) l →
  Sorted (λ a b, (key a ≤ key b)%Qc) (insert_on key x l).
Proof.
  induction 1 as [|y l Hl IH Hhd]; simpl.
  - repeat constructor.
  - case_decide as Hxy.
    + repeat constructor; done.
    + constructor; [done|].
      assert (key y ≤ key x)%Qc as Hyx.
      { apply Qclt_le_weak. by apply Qclt_nge. }
      destruct Hhd as [|z l Hyz]; simpl; [by repeat constructor|].
      case_decide; by constructor.
Qed.

Lemma sort_on_sorted (l : list A) : Sorted (λ a b, (key a ≤ key b)%Qc) (sort_on key l).
Proof.
  induction l as [|x l IH]; [constructor|]. by apply insert_on_sorted.
Qed.

Lemma strictly_sorted_key_inj (w : list A) (x y : A) :
  StronglySorted (λ a b, (key a < key b)%Qc) w →
  x ∈ w → y ∈ w → key x = key y → x = y.
Proof.
  induction 1 as [|z w Hw IH Hz]; intros Hx Hy Hk; [by apply elem_of_nil in Hx|].
  rewrite Forall_forall in Hz.
  apply elem_of_cons in Hx as [->|Hx]; apply elem_of_cons in Hy as [->|Hy]; auto.
  - apply Hz in Hy. rewrite Hk in Hy. by apply Qclt_not_eq in Hy.
  - apply Hz in Hx. rewrite Hk in Hx. by apply Qclt_not_eq in Hx.
Qed.

Lemma sort_on_strictly_sorted (l w : list A) :
  StronglySorted (λ a b, (key a < key b)%Qc) w → l ≡ₚ w → sort_on key l = w.
Proof.
  intros Hw Hp.
  apply (@Sorted_unique_strong _ (λ a b, (key a ≤ key b)%Qc) key_le_transitive).
  - intros x1 x2 Hx1 Hx2 H12 H21.
    apply (strictly_sorted_key_inj w); [done| |done|by apply Qcle_antisym].
    by rewrite <- Hp, <- (sort_on_perm l).
  - apply sort_on_sorted.
  - apply StronglySorted_Sorted.
    eapply StronglySorted_fmap with (f := id) in Hw; [by rewrite list_fmap_id in Hw|].
    intros a b. apply Qclt_le_weak.
  - by rewrite sort_on_perm.
Qed.
End Sorting.

Lemma worker_steps (L S c i : Z) :
  0 < S → 0 ≤ c → 0 ≤ i →
  Z.max 0 (Z.min (c * S) (L - i * (c * S))) / S = Z.max 0 (Z.min c (L / S - i * c)).
Proof.
  intros HS Hc Hi.
  pose proof (Z.div_mod L S ltac:(lia)) as Hdm.
  pose proof (Z.mod_pos_bound L S HS) as Hr.
  set (q := L / S) in *. set (r := L mod S) in *.
  destruct (decide (c * S ≤ L - i * (c * S))) as [H1|H1].
  - rewrite (Z.min_l (c * S)), (Z.max_r 0 (c * S)), Z.div_mul by nia. nia.
  - rewrite (Z.min_r (c * S)) by lia.
    destruct (decide (0 ≤ L - i * (c * S))) as [H2|H2].
    + rewrite Z.max_r by lia.
      replace (L - i * (c * S)) with (r + (q - i * c) * S) by lia.
      rewrite Z.div_add, Z.div_small by lia. nia.
    + rewrite Z.max_l by lia. rewrite Z.div_0_l by lia. nia.
Qed.

Lemma strongly_sorted_seq {A} (R : relation A) (g : nat → A) (k m : nat) :
  (∀ i j, (k ≤ i < j)%nat → (j < k + m)%nat → R (g i) (g j)) →
  StronglySorted R (g <$> seq k m).
Proof.
  revert k. induction m as [|m IH]; intros k Hg; [constructor|].
  cbn [seq]. rewrite fmap_cons. constructor.
  - apply IH. intros i j Hi Hj. apply Hg; lia.
  - rewrite Forall_fmap, Forall_seq. intros j Hj. apply Hg; lia.
Qed.

Lemma concat_strides {A} (f : Z → A) (n c : Z) (P : nat) :
  0 < c → 0 ≤ n →
  concat ((λ i, (λ k, f (i * c + k)) <$> range (Z.max 0 (Z.min c (n - i * c))))
            <$> (Z.of_nat <$> seq 0 P))
  = f <$> range (Z.min (Z.of_nat P * c) n).
Proof.
  intros Hc Hn. induction P as [|P IH].
  - simpl. rewrite Z.min_l by lia. reflexivity.
  - rewrite seq_S, !fmap_app, concat_app, IH. cbn [fmap list_fmap concat]. rewrite app_nil_r.
    set (i := Z.of_nat P). simpl plus.
    replace (Z.min (Z.of_nat (S P) * c) n)
      with (Z.min (i * c) n + Z.max 0 (Z.min c (n - i * c))) by lia.
    unfold range. rewrite seqZ_app, fmap_app by lia. f_equal.
    destruct (decide (n - i * c ≤ 0)) as [Hle|Hgt].
    + rewrite (Z.max_l 0) by lia. rewrite !seqZ_nil by lia. done.
    + rewrite (Z.min_l (i * c)) by lia.
      replace (0 + i * c) with (i * c + 0) by lia.
      rewrite <- (fmap_add_seqZ (i * c) 0), <- list_fmap_compose.
      by apply list_fmap_ext.
Qed.

Section Dispatch.

Context `{Collaborators}.

Lemma from_timeseries_single (ts : TimeSeries) (stride : Qc) (fftlength fftstride : option Qc)
    (method : string) (window : option Window) (plan : option Plan)
    (maxprocesses minprocesssize : Z) (finish : nat → Qc) (nsteps : Z) :
  let fl := default stride fftlength in
  let fs := default fl fftstride in
  let nFFT := int (fl * ts_sample_rate ts)%Qc in
  floordiv (Qc_of_Z (ts_size ts)) (stride * ts_sample_rate ts)%Qc = Returns nsteps →
  maxprocesses = 1 ∨ nsteps = 0 →
  from_timeseries ts stride fftlength fftstride method window plan
                  maxprocesses minprocesssize finish
  = without_workers
      (_from_timeseries ts stride (Some fl) (Some fs) method (lal_window nFFT ts window) None).
Proof.
  intros fl fs nFFT Hn Hmode. unfold from_timeseries. fold fl. fold fs. fold nFFT.
  rewrite Hn. by rewrite decide_True.
Qed.

Lemma from_timeseries_dispatch (ts : TimeSeries) (stride : Qc) (fftlength fftstride : option Qc)
    (method : string) (window : option Window) (plan : option Plan)
    (maxprocesses minprocesssize : Z) (finish : nat → Qc) (nsteps : Z) :
  let fl := default stride fftlength in
  let fs := default fl fftstride in
  let nFFT := int (fl * ts_sample_rate ts)%Qc in
  let nproc := Z.max 1 (nsteps / minprocesssize) in
  let stepperproc := ceil (Qc_of_Z nsteps / Qc_of_Z nproc)%Qc in
  let nsamp := (Qc_of_Z stepperproc * ts_sample_rate ts * stride)%Qc in
  floordiv (Qc_of_Z (ts_size ts)) (stride * ts_sample_rate ts)%Qc = Returns nsteps →
  maxprocesses ≠ 1 → nsteps ≠ 0 → minprocesssize ≠ 0 →
  from_timeseries ts stride fftlength fftstride method window plan
                  maxprocesses minprocesssize finish
  = {| run_started := worker_slices ts nproc nsamp;
       run_queue := Some maxprocesses;
       run_result :=
         data ← collect finish
                  ((λ t, _from_timeseries t stride (Some fl) (Some fs) method
                           (lal_window nFFT ts window) (lal_plan nFFT ts plan))
                     <$> worker_slices ts nproc nsamp);
         sort_and_join data |}.
Proof.
  intros fl fs nFFT nproc stepperproc nsamp Hn Hmp Hn0 Hm.
  unfold from_timeseries. fold fl. fold fs. fold nFFT.
  rewrite Hn. rewrite decide_False by tauto.
  unfold int_floordiv. rewrite decide_False by done. done.
Qed.

Lemma steps_per_proc_bounds (n P : Z) :
  0 < P → 0 < n → 1 ≤ - (- n / P) ∧ n ≤ P * - (- n / P).
Proof.
  intros HP Hn.
  pose proof (Z.div_mod (- n) P ltac:(lia)) as Hdm.
  pose proof (Z.mod_pos_bound (- n) P HP) as Hr.
  nia.
Qed.

Lemma worker_returns (ts : TimeSeries) (stride fl fs : Qc)
    (method : string) (window : option Window) (plan : option Plan) (S c i : Z) :
  psd_bins → whole_index →
  fl ≠ 0%Qc → 0 ≤ nfreqs_of fl (ts_sample_rate ts) → ts_sample_rate ts ≠ 0%Qc →
  (stride * ts_sample_rate ts)%Qc = Qc_of_Z S → 0 < S → 0 ≤ c → 0 ≤ i →
  _from_timeseries (stride_series ts (c * S) i) stride (Some fl) (Some fs) method window plan
  = Returns (partial_of ts stride fl fs method window plan S c i).
Proof.
  intros Hpsd Hidx Hfl Hnf HR HS Hpos Hc Hi.
  rewrite (builder_whole _ _ _ _ _ _ _ S); try done.
  assert (ts_size (stride_series ts (c * S) i) / S
          = Z.max 0 (Z.min c (ts_size ts / S - i * c))) as ->.
  { rewrite ts_size_stride_series by nia. by apply worker_steps. }
  unfold partial_of. cbn [from_option id]. f_equal. f_equal.
  apply list_fmap_ext. intros j k Hk. apply lookup_seqZ in Hk as [-> Hk].
  f_equal. apply stride_series_nested; try done; lia.
Qed.

Lemma worker_slices_whole (ts : TimeSeries) (stride : Qc) (S c P : Z) :
  whole_index → (stride * ts_sample_rate ts)%Qc = Qc_of_Z S → 0 ≤ c * S →
  worker_slices ts P (Qc_of_Z c * ts_sample_rate ts * stride)%Qc
  = (λ i, stride_series ts (c * S) i) <$> range P.
Proof.
  intros Hidx HS HN. unfold worker_slices.
  apply list_fmap_ext. intros j i Hi. apply lookup_seqZ in Hi as [-> Hi].
  assert ((Qc_of_Z c * ts_sample_rate ts * stride)%Qc = Qc_of_Z (c * S)) as ->.
  { rewrite Z2Qc_inj_mul, <- HS. ring. }
  apply ts_getitem_stride; try done; try lia.
  - by rewrite <- Z2Qc_inj_mul.
  - rewrite <- Z2Qc_inj_mul. f_equal. lia.
Qed.

Lemma fmap_snd_imap {A} (l : list A) (g : nat → A → nat * A) :
  (∀ i x, snd (g i x) = x) → snd <$> imap g l = l.
Proof.
  revert g. induction l as [|x l IH]; intros g Hg; [done|].
  simpl. rewrite Hg. f_equal. apply IH. intros i y. apply Hg.
Qed.

Lemma collect_returns (finish : nat → Qc) (specs : list Spectrogram) :
  ∃ data, collect finish (Returns <$> specs) = Returns data ∧ data ≡ₚ specs.
Proof.
  unfold collect. rewrite mapM_fmap_Some by done.
  eexists. split; [done|].
  rewrite sort_on_perm. by rewrite fmap_snd_imap.
Qed.

Lemma partials_sorted (ts : TimeSeries) (stride fl fs : Qc)
    (method : string) (window : option Window) (plan : option Plan) (S c P : Z) :
  (0 < ts_sample_rate ts)%Qc → 0 < c * S →
  StronglySorted (λ a b, (sg_epoch a < sg_epoch b)%Qc)
    (partial_of ts stride fl fs method window plan S c <$> range P).
Proof.
  intros HR HN. rewrite range_seq, <- list_fmap_compose.
  apply strongly_sorted_seq. intros i j Hi Hj. cbn [compose partial_of sg_epoch].
  apply Qcplus_lt_mono_l. unfold Qcdiv.
  apply Qcmult_lt_mono_pos_r; [by apply Qcinv_pos|].
  apply (proj1 (Z2Qc_inj_lt _ _)). nia.
Qed.

Lemma sg_join_rows (first : Spectrogram) (rest : list Spectrogram) :
  sg_rows (sg_join first rest) = concat (sg_rows <$> first :: rest).
Proof. done. Qed.

Lemma partial_rows_concat (ts : TimeSeries) (stride fl fs : Qc)
    (method : string) (window : option Window) (plan : option Plan) (S c P : Z) :
  0 < c → 0 ≤ P → ts_size ts / S ≤ P * c → 0 < S →
  concat (sg_rows <$> (partial_of ts stride fl fs method window plan S c <$> range P))
  = (λ step, psd (stride_series ts S step) fl fs method window plan)
      <$> range (ts_size ts / S).
Proof.
  intros Hc HP Hn HS.
  assert (0 ≤ ts_size ts / S) by (apply Z.div_pos; unfold ts_size; lia).
  rewrite <- list_fmap_compose, range_seq.
  etrans; [|etrans; [apply (concat_strides
    (λ step, psd (stride_series ts S step) fl fs method window plan)
    (ts_size ts / S) c (Z.to_nat P)); done|]].
  - done.
  - do 2 f_equal. lia.
Qed.

Lemma dispatch_joined (ts : TimeSeries) (stride fl fs : Qc)
    (method : string) (window : option Window) (plan : option Plan)
    (S c P : Z) (data : list Spectrogram) :
  psd_bins → whole_index →
  fl ≠ 0%Qc → 0 ≤ nfreqs_of fl (ts_sample_rate ts) → (0 < ts_sample_rate ts)%Qc →
  (stride * ts_sample_rate ts)%Qc = Qc_of_Z S → 0 < S →
  0 < ts_size ts / S → 0 < c → 0 < P → ts_size ts / S ≤ P * c →
  data ≡ₚ partial_of ts stride fl fs method window plan S c <$> range P →
  sort_and_join data
  = _from_timeseries ts stride (Some fl) (Some fs) method window plan.
Proof.
  intros Hpsd Hidx Hfl Hnf HR HS Hpos Hn Hc HP Hcover Hdata.
  rewrite (builder_whole _ _ _ _ _ _ _ S) by done. cbn [from_option id].
  unfold sort_and_join.
  rewrite (sort_on_strictly_sorted _ _ _ (partials_sorted ts stride fl fs method window plan
             S c P HR ltac:(nia)) Hdata).
  pose proof (partial_rows_concat ts stride fl fs method window plan S c P
                Hc ltac:(lia) Hcover Hpos) as Hrows.
  unfold range in *. rewrite (seqZ_cons 0 P) in * by lia.
  rewrite fmap_cons in *. f_equal.
  rewrite <- Hrows. unfold sg_join, sg_with_rows. cbn [partial_of sg_rows sg_nfreqs
    sg_channel sg_epoch sg_f0 sg_df sg_dt sg_unit fmap list_fmap concat].
  f_equal.
  - rewrite Z.mul_0_l, Z2Qc_inj_0. unfold Qcdiv. by rewrite Qcmult_0_l, Qcplus_0_r.
  - rewrite !decide_False by lia. done.
Qed.

Lemma floordiv_whole (L S : Z) :
  S ≠ 0 → floordiv (Qc_of_Z L) (Qc_of_Z S) = Returns (L / S).
Proof.
  intros HS. rewrite floordiv_ne_0 by (by rewrite Qc_of_Z_eq_0).
  by rewrite floor_div_whole.
Qed.

Lemma dispatch_partials (ts : TimeSeries) (stride : Qc) (fftlength fftstride : option Qc)
    (method : string) (window : option Window) (plan : option Plan)
    (maxprocesses minprocesssize : Z) (finish : nat → Qc) (S : Z) :
  let fl := default stride fftlength in
  let fs := default fl fftstride in
  let nFFT := int (fl * ts_sample_rate ts)%Qc in
  let nsteps := ts_size ts / S in
  let nproc := Z.max 1 (nsteps / minprocesssize) in
  let stepperproc := ceil (Qc_of_Z nsteps / Qc_of_Z nproc)%Qc in
  let worker := λ t, _from_timeseries t stride (Some fl) (Some fs) method
                       (lal_window nFFT ts window) (lal_plan nFFT ts plan) in
  psd_bins → whole_index →
  fl ≠ 0%Qc → 0 ≤ nfreqs_of fl (ts_sample_rate ts) → (0 < ts_sample_rate ts)%Qc →
  (stride * ts_sample_rate ts)%Qc = Qc_of_Z S → 0 < S → 0 < nsteps →
  maxprocesses ≠ 1 → minprocesssize ≠ 0 →
  let run := from_timeseries ts stride fftlength fftstride method window plan
               maxprocesses minprocesssize finish in
  run_started run = (λ i, stride_series ts (stepperproc * S) i) <$> range nproc ∧
  1 ≤ stepperproc ∧ nsteps ≤ nproc * stepperproc ∧
  ∃ data,
    collect finish (worker <$> run_started run) = Returns data ∧
    sort_on sg_epoch data
    = partial_of ts stride fl fs method (lal_window nFFT ts window) (lal_plan nFFT ts plan)
        S stepperproc <$> range nproc ∧
    run_result run = sort_and_join data ∧
    sort_and_join data = worker ts.
Proof.
  intros fl fs nFFT nsteps nproc stepperproc worker
    Hpsd Hidx Hfl Hnf HR HS Hpos Hn Hmp Hm run.
  assert (0 < nproc) as HP by lia.
  destruct (steps_per_proc_bounds nsteps nproc HP Hn) as [Hc Hcover].
  rewrite <- ceil_div_whole in Hc, Hcover. fold stepperproc in Hc, Hcover.
  assert (run = {| run_started := (λ i, stride_series ts (stepperproc * S) i) <$> range nproc;
                   run_queue := Some maxprocesses;
                   run_result :=
                     data ← collect finish
                       (worker <$> ((λ i, stride_series ts (stepperproc * S) i) <$> range nproc));
                     sort_and_join data |}) as Hrun.
  { unfold run. rewrite (from_timeseries_dispatch _ _ _ _ _ _ _ _ _ _ nsteps);
      [|rewrite HS; apply floordiv_whole; lia|done|lia|done].
    fold fl fs nFFT nproc stepperproc.
    by rewrite (worker_slices_whole _ _ S) by (done || nia). }
  rewrite Hrun. cbn [run_started run_result].
  split; [done|]. split; [done|]. split; [done|].
  assert (worker <$> ((λ i, stride_series ts (stepperproc * S) i) <$> range nproc)
          = Returns <$> (partial_of ts stride fl fs method (lal_window nFFT ts window)
                           (lal_plan nFFT ts plan) S stepperproc <$> range nproc)) as ->.
  { rewrite <- !list_fmap_compose. apply list_fmap_ext. intros j i Hi.
    apply lookup_seqZ in Hi as [-> Hi]. cbn [compose]. unfold worker.
    apply worker_returns; try done; try lia. by apply Qc_pos_ne_0. }
  destruct (collect_returns finish
    (partial_of ts stride fl fs method (lal_window nFFT ts window)
       (lal_plan nFFT ts plan) S stepperproc <$> range nproc)) as (data & -> & Hdata).
  exists data. split; [done|]. split.
  { apply sort_on_strictly_sorted; [|done]. apply partials_sorted; [done|nia]. }
  split; [done|].
  apply (dispatch_joined _ _ _ _ _ _ _ S stepperproc nproc); try done. lia.
Qed.
End Dispatch.

Lemma concat_chunks {A} (l : list A) (S : Z) (n : nat) :
  0 ≤ S →
  concat ((λ i, take (Z.to_nat S) (drop (Z.to_nat (i * S)) l)) <$> (Z.of_nat <$> seq 0 n))
  = take (Z.to_nat (Z.of_nat n * S)) l.
Proof.
  intros HS. induction n as [|n IH]; [done|].
  rewrite seq_S, !fmap_app, concat_app, IH. cbn [fmap list_fmap concat]. rewrite app_nil_r.
  rewrite take_take_drop. f_equal. nia.
Qed.

Section TimeAxis.

Context `{Collaborators}.

Lemma row_times_partial (ts : TimeSeries) (stride fl fs : Qc)
    (method : string) (window : option Window) (plan : option Plan) (S c i : Z) :
  ts_sample_rate ts ≠ 0%Qc → (stride * ts_sample_rate ts)%Qc = Qc_of_Z S →
  row_times (partial_of ts stride fl fs method window plan S c i)
  = (λ k, (ts_epoch ts + Qc_of_Z (i * c + k) * stride)%Qc)
      <$> range (Z.max 0 (Z.min c (ts_size ts / S - i * c))).
Proof.
  intros HR HS. unfold row_times. cbn [partial_of sg_rows sg_epoch sg_dt].
  rewrite imap_seq_0, length_fmap, !range_seq, length_fmap, length_seq.
  rewrite <- list_fmap_compose. apply list_fmap_ext. intros _ k _. cbn [compose].
  rewrite !Z2Qc_inj_add, !Z2Qc_inj_mul, <- HS. field. done.
Qed.

Lemma time_axis_partials (ts : TimeSeries) (stride fl fs : Qc)
    (method : string) (window : option Window) (plan : option Plan) (S c P : Z) :
  ts_sample_rate ts ≠ 0%Qc → (stride * ts_sample_rate ts)%Qc = Qc_of_Z S →
  0 < c → 0 ≤ P → 0 < S → ts_size ts / S ≤ P * c →
  time_axis (partial_of ts stride fl fs method window plan S c <$> range P)
  = (λ k, (ts_epoch ts + Qc_of_Z k * stride)%Qc) <$> range (ts_size ts / S).
Proof.
  intros HR HS Hc HP Hpos Hcover.
  assert (0 ≤ ts_size ts / S) by (apply Z.div_pos; unfold ts_size; lia).
  unfold time_axis. rewrite <- list_fmap_compose, range_seq.
  etrans; [|etrans; [apply (concat_strides
    (λ k, (ts_epoch ts + Qc_of_Z k * stride)%Qc) (ts_size ts / S) c (Z.to_nat P)); done|]].
  - f_equal. apply list_fmap_ext. intros _ i _. cbn [compose].
    by apply row_times_partial.
  - do 2 f_equal. lia.
Qed.

End TimeAxis.

(** ** The claims *)

Section Claims.

Context `{Collaborators}.

(** X10.  When the series holds at least one full stride, the builder ends
    with the assignment of the unit: the unit of the series per Hertz, or the
    inverse of Hertz when that quotient is undefined. *)
Lemma builder_unit_derived (ts : TimeSeries) (stride : Qc) (fftlength fftstride : option Qc)
    (method : string) (window : option Window) (plan : option Plan) :
  let fl := default stride fftlength in
  psd_bins →
  (0 < stride)%Qc → (0 < ts_sample_rate ts)%Qc → (0 < fl)%Qc →
  0 < floor (Qc_of_Z (ts_size ts) / (stride * ts_sample_rate ts))%Qc →
  ∃ out,
    _from_timeseries ts stride fftlength fftstride method window plan = Returns out
    ∧ sg_unit out
      = Some (match unit_div (ts_unit ts) Hertz with
              | Some u => u
              | None => unit_recip Hertz
              end).
Proof.
  intros fl Hpsd Hs HR Hfl Hn.
  assert (0 < stride * ts_sample_rate ts)%Qc as Hpos by (by apply Qcmult_pos_pos).
  eexists. split.
  - apply builder_returns; try done; try (by apply Qc_pos_ne_0); [lia|].
    apply Z.lt_le_incl. by apply nfreqs_of_pos.
  - cbn [sg_unit]. rewrite decide_False by lia. unfold derived_unit.
    by destruct (unit_div (ts_unit ts) Hertz).
Qed.

(** C10.  Leaving [fftlength] out is the same call as passing the stride for
    it, and leaving [fftstride] out is the same call as passing the FFT length
    in force for it, in the single-process builder and in the wrapper. *)
Theorem fft_defaults (ts : TimeSeries) (stride : Qc) (fftlength fftstride : option Qc)
    (method : string) (window : option Window) (plan : option Plan)
    (maxprocesses minprocesssize : Z) (finish : nat → Qc) :
  _from_timeseries ts stride None fftstride method window plan
  = _from_timeseries ts stride (Some stride) fftstride method window plan
  ∧ _from_timeseries ts stride fftlength None method window plan
    = _from_timeseries ts stride fftlength (Some (default stride fftlength)) method window plan
  ∧ from_timeseries ts stride None fftstride method window plan
      maxprocesses minprocesssize finish
    = from_timeseries ts stride (Some stride) fftstride method window plan
        maxprocesses minprocesssize finish
  ∧ from_timeseries ts stride fftlength None method window plan
      maxprocesses minprocesssize finish
    = from_timeseries ts stride fftlength (Some (default stride fftlength)) method window plan
        maxprocesses minprocesssize finish.
Proof. repeat split; reflexivity. Qed.

(** C3.  For a series of [L] samples at a positive rate [R], a positive
    stride [s] and a positive FFT length [f], the builder returns a
    spectrogram with [dt = s], [df = 1 / f], [floor (L / (s * R))] rows and
    [floor (f * R / 2) + 1] columns: that is its shape, and every one of its
    rows holds that many bins. *)
Theorem builder_shape (ts : TimeSeries) (stride : Qc) (fftlength fftstride : option Qc)
    (method : string) (window : option Window) (plan : option Plan) :
  let fl := default stride fftlength in
  psd_bins →
  (0 < stride)%Qc → (0 < ts_sample_rate ts)%Qc → (0 < fl)%Qc →
  ∃ out,
    _from_timeseries ts stride fftlength fftstride method window plan = Returns out
    ∧ sg_dt out = stride
    ∧ sg_df out = (1 / fl)%Qc
    ∧ sg_shape out
      = (floor (Qc_of_Z (ts_size ts) / (stride * ts_sample_rate ts))%Qc,
         floor (fl * ts_sample_rate ts / 2)%Qc + 1)
    ∧ Z.of_nat (length (sg_rows out))
      = floor (Qc_of_Z (ts_size ts) / (stride * ts_sample_rate ts))%Qc
    ∧ Forall (λ row, Z.of_nat (length row) = floor (fl * ts_sample_rate ts / 2)%Qc + 1)
        (sg_rows out).
Proof.
  intros fl Hpsd Hs HR Hfl.
  assert (0 < stride * ts_sample_rate ts)%Qc as Hpos by (by apply Qcmult_pos_pos).
  assert (0 ≤ floor (Qc_of_Z (ts_size ts) / (stride * ts_sample_rate ts))%Qc) as Hn.
  { apply floor_nonneg, Qcdiv_nonneg; [|done].
    rewrite <- Z2Qc_inj_0. apply (proj1 (Z2Qc_inj_le _ _)). unfold ts_size. lia. }
  pose proof (nfreqs_of_pos fl (ts_sample_rate ts) Hfl HR) as Hnf.
  eexists. split.
  - apply builder_returns; try done; try (by apply Qc_pos_ne_0).
    apply Z.lt_le_incl. by apply nfreqs_of_pos.
  - cbn [sg_dt sg_df sg_rows]. split; [done|]. split; [done|].
    assert (Z.of_nat (length
              ((λ step, psd (ts_getitem ts (stride * ts_sample_rate ts * Qc_of_Z step)%Qc
                               (stride * ts_sample_rate ts * Qc_of_Z step
                                + stride * ts_sample_rate ts)%Qc)
                            fl (default fl fftstride) method window plan)
                 <$> range (floor (Qc_of_Z (ts_size ts) / (stride * ts_sample_rate ts))%Qc)))
            = floor (Qc_of_Z (ts_size ts) / (stride * ts_sample_rate ts))%Qc) as Hrows.
    { rewrite length_fmap. unfold range. rewrite length_seqZ. lia. }
    split; [|split; [exact Hrows|]].
    + unfold sg_shape. cbn [sg_rows sg_nfreqs]. f_equal. exact Hrows.
    + rewrite Forall_fmap. apply Forall_forall. intros step _. cbn [compose].
      rewrite Hpsd. cbn [ts_getitem ts_sample_rate]. fold fl.
      rewrite Z2Nat.id; [reflexivity|lia].
Qed.

(** C4.  When the series is shorter than one stride ([nsteps = 0]) the
    builder does not fail: it returns a spectrogram without rows whose epoch
    is that of the series, with [dt] the stride, [df = 1 / fftlength] and
    [f0 = 0].  It returns before the unit is assigned, so the unit of the
    result is not the one derived from the unit of the series. *)
Theorem builder_empty_unit_unset (ts : TimeSeries) (stride : Qc)
    (fftlength fftstride : option Qc)
    (method : string) (window : option Window) (plan : option Plan) :
  let fl := default stride fftlength in
  fl ≠ 0%Qc → 0 ≤ nfreqs_of fl (ts_sample_rate ts) →
  floordiv (Qc_of_Z (ts_size ts)) (stride * ts_sample_rate ts)%Qc = Returns 0 →
  ∃ out,
    _from_timeseries ts stride fftlength fftstride method window plan = Returns out
    ∧ sg_rows out = []
    ∧ sg_epoch out = ts_epoch ts
    ∧ sg_dt out = stride
    ∧ sg_df out = (1 / fl)%Qc
    ∧ sg_f0 out = 0%Qc
    ∧ sg_unit out = None.
Proof.
  intros fl Hfl Hnf Hn. unfold _from_timeseries. fold fl.
  unfold mbind, outcome_bind.
  rewrite truediv_ne_0 by done. cbn [bind]. rewrite Hn. cbn [bind].
  rewrite (floordiv_ne_0 _ 2%Qc) by apply two_ne_0. cbn [bind].
  change (floor (fl * ts_sample_rate ts / 2)%Qc + 1) with (nfreqs_of fl (ts_sample_rate ts)).
  rewrite zeros_nonneg by done. cbn [bind].
  rewrite decide_True by done.
  eexists. split; [done|]. repeat split.
Qed.




(** C1 (amended).  When a stride holds a whole number of samples, the
    wrapper run with [maxprocesses] other than 1 returns, and so does the
    single-process builder on the same series with the same stride, FFT
    length, FFT stride and method and with the window and plan the wrapper
    hands to its workers (the caller's, unless [lal] generated them); both
    results have the same number of rows and the same rows, whatever the
    order in which the workers finish.  Without either restriction the two
    results differ: see the counterexample. *)
Theorem parallel_matches_single (ts : TimeSeries) (stride : Qc)
    (fftlength fftstride : option Qc)
    (method : string) (window : option Window) (plan : option Plan)
    (maxprocesses minprocesssize : Z) (finish : nat → Qc) (S : Z) :
  let fl := default stride fftlength in
  let nFFT := int (fl * ts_sample_rate ts)%Qc in
  psd_bins → whole_index →
  (0 < fl)%Qc → (0 < ts_sample_rate ts)%Qc →
  (stride * ts_sample_rate ts)%Qc = Qc_of_Z S → 0 < S →
  maxprocesses ≠ 1 → minprocesssize ≠ 0 →
  ∃ par single,
    run_result (from_timeseries ts stride fftlength fftstride method window plan
                  maxprocesses minprocesssize finish) = Returns par
    ∧ _from_timeseries ts stride fftlength fftstride method
        (lal_window nFFT ts window) (lal_plan nFFT ts plan) = Returns single
    ∧ length (sg_rows par) = length (sg_rows single)
    ∧ sg_rows par = sg_rows single.
Proof.
  intros fl nFFT Hpsd Hidx Hfl HR HS Hpos Hmp Hm.
  assert (fl ≠ 0%Qc) as Hfl0 by (by apply Qc_pos_ne_0).
  assert (0 ≤ nfreqs_of fl (ts_sample_rate ts)) as Hnf
    by (apply Z.lt_le_incl; by apply nfreqs_of_pos).
  assert (0 ≤ ts_size ts / S) as Hn by (apply Z.div_pos; unfold ts_size; lia).
  destruct (decide (ts_size ts / S = 0)) as [Hz|Hnz].
  - rewrite (from_timeseries_single _ _ _ _ _ _ _ _ _ _ (ts_size ts / S));
      [|rewrite HS; apply floordiv_whole; lia|by right].
    cbn [without_workers run_result].
    rewrite !(builder_whole _ _ _ _ _ _ _ S) by done.
    do 2 eexists. split; [done|]. split; [done|].
    cbn [sg_rows]. rewrite Hz. done.
  - destruct (dispatch_partials ts stride fftlength fftstride method window plan
                maxprocesses minprocesssize finish S)
      as (_ & _ & _ & data & _ & _ & -> & ->); try done; try lia.
    change (_from_timeseries ts stride (Some (default stride fftlength))
              (Some (default (default stride fftlength) fftstride)) method
              (lal_window (int (default stride fftlength * ts_sample_rate ts)%Qc) ts window)
              (lal_plan (int (default stride fftlength * ts_sample_rate ts)%Qc) ts plan))
      with (_from_timeseries ts stride fftlength fftstride method
              (lal_window nFFT ts window) (lal_plan nFFT ts plan)).
    rewrite (builder_whole _ _ _ _ _ _ _ S) by done.
    do 2 eexists. done.
Qed.

(** C2 (amended).  In a multi-process run over a series with strides of a
    whole number of samples, every worker returns; the partial spectrograms,
    sorted by increasing epoch, are what the run joins, and the start times
    of their rows, laid end to end, are [epoch], [epoch + stride], ...,
    [epoch + (nsteps - 1) * stride]: no time step is missing or repeated, the
    steps after the last full stride are absent, and the rows number
    [nsteps = floor (L / S)].  For a stride of a fractional number of samples
    the tiling fails: see the counterexample. *)
Theorem partials_tile_time_axis (ts : TimeSeries) (stride : Qc)
    (fftlength fftstride : option Qc)
    (method : string) (window : option Window) (plan : option Plan)
    (maxprocesses minprocesssize : Z) (finish : nat → Qc) (S : Z) :
  let fl := default stride fftlength in
  let fs := default fl fftstride in
  let nFFT := int (fl * ts_sample_rate ts)%Qc in
  let nsteps := ts_size ts / S in
  let run := from_timeseries ts stride fftlength fftstride method window plan
               maxprocesses minprocesssize finish in
  let worker := λ t, _from_timeseries t stride (Some fl) (Some fs) method
                       (lal_window nFFT ts window) (lal_plan nFFT ts plan) in
  psd_bins → whole_index →
  (0 < fl)%Qc → (0 < ts_sample_rate ts)%Qc →
  (stride * ts_sample_rate ts)%Qc = Qc_of_Z S → 0 < S → 0 < nsteps →
  maxprocesses ≠ 1 → minprocesssize ≠ 0 →
  ∃ data,
    collect finish (worker <$> run_started run) = Returns data
    ∧ run_result run = sort_and_join data
    ∧ time_axis (sort_on sg_epoch data)
      = (λ k, (ts_epoch ts + Qc_of_Z k * stride)%Qc) <$> range nsteps
    ∧ Z.of_nat (length (concat (sg_rows <$> sort_on sg_epoch data))) = nsteps.
Proof.
  intros fl fs nFFT nsteps run worker Hpsd Hidx Hfl HR HS Hpos Hn Hmp Hm.
  assert (fl ≠ 0%Qc) as Hfl0 by (by apply Qc_pos_ne_0).
  assert (0 ≤ nfreqs_of fl (ts_sample_rate ts)) as Hnf
    by (apply Z.lt_le_incl; by apply nfreqs_of_pos).
  destruct (dispatch_partials ts stride fftlength fftstride method window plan
              maxprocesses minprocesssize finish S)
    as (_ & Hc & Hcover & data & Hdata & Hsorted & Hres & _); try done.
  exists data. split; [done|]. split; [done|]. rewrite Hsorted. split.
  - apply time_axis_partials; try done; try lia. by apply Qc_pos_ne_0.
  - rewrite partial_rows_concat by (done || lia).
    rewrite length_fmap. unfold range. rewrite length_seqZ. fold nsteps. lia.
Qed.


(** C6 (amended).  In a multi-process run over a series with strides of [S]
    samples, the wrapper computes [nproc = max(1, floor(nsteps /
    minprocesssize))] and [steps_per_proc = ceil(nsteps / nproc)] and starts
    [nproc] workers; worker [i] is handed the samples from
    [i * steps_per_proc * S] up to [(i + 1) * steps_per_proc * S], cut off
    at the end of the series, so that a slice holds
    [max(0, min(steps_per_proc * S, L - i * steps_per_proc * S))] samples:
    the ranges asked for hold [steps_per_proc] strides each, and every slice
    that reaches past the end of the series, not only the last one, is
    shorter or empty.  Laid end to end the slices are the first
    [nproc * steps_per_proc * S] samples of the series, which include every
    full stride. *)
Theorem partition_clipped (ts : TimeSeries) (stride : Qc)
    (fftlength fftstride : option Qc)
    (method : string) (window : option Window) (plan : option Plan)
    (maxprocesses minprocesssize : Z) (finish : nat → Qc) (S : Z) :
  let nsteps := ts_size ts / S in
  let nproc := Z.max 1 (nsteps / minprocesssize) in
  let steps_per_proc := ceil (Qc_of_Z nsteps / Qc_of_Z nproc)%Qc in
  let N := steps_per_proc * S in
  let run := from_timeseries ts stride fftlength fftstride method window plan
               maxprocesses minprocesssize finish in
  whole_index →
  (stride * ts_sample_rate ts)%Qc = Qc_of_Z S → 0 < S → 0 < nsteps →
  maxprocesses ≠ 1 → minprocesssize ≠ 0 →
  Z.of_nat (length (run_started run)) = nproc
  ∧ (∀ i, 0 ≤ i < nproc →
       ∃ t, run_started run !! Z.to_nat i = Some t
            ∧ ts_data t = take (Z.to_nat N) (drop (Z.to_nat (i * N)) (ts_data ts))
            ∧ ts_size t = Z.max 0 (Z.min N (ts_size ts - i * N)))
  ∧ concat (ts_data <$> run_started run) = take (Z.to_nat (nproc * N)) (ts_data ts)
  ∧ nsteps * S ≤ nproc * N.
Proof.
  intros nsteps nproc steps_per_proc N run Hidx HS Hpos Hn Hmp Hm.
  assert (0 < nproc) as HP by lia.
  destruct (steps_per_proc_bounds nsteps nproc HP Hn) as [Hc Hcover].
  rewrite <- ceil_div_whole in Hc, Hcover. fold steps_per_proc in Hc, Hcover.
  assert (run_started run = (λ i, stride_series ts N i) <$> range nproc) as ->.
  { unfold run. rewrite (from_timeseries_dispatch _ _ _ _ _ _ _ _ _ _ nsteps);
      [|rewrite HS; apply floordiv_whole; lia|done|lia|done].
    cbn [run_started]. fold nproc steps_per_proc.
    by rewrite (worker_slices_whole _ _ S) by (done || nia). }
  split; [|split; [|split]].
  - rewrite length_fmap. unfold range. rewrite length_seqZ. lia.
  - intros i Hi. eexists. split; [|split].
    + rewrite list_lookup_fmap. unfold range. rewrite lookup_seqZ_lt by lia. done.
    + cbn [stride_series ts_data]. do 3 f_equal. lia.
    + rewrite ts_size_stride_series by nia. do 4 f_equal. lia.
  - rewrite <- list_fmap_compose, range_seq.
    etrans; [apply (concat_chunks (ts_data ts) N (Z.to_nat nproc)); nia|].
    do 2 f_equal. lia.
  - nia.
Qed.

(** C9.  Whenever the wrapper runs in multi-process mode ([maxprocesses]
    other than 1, [nsteps] other than 0), it starts exactly
    [max(1, floor(nsteps / minprocesssize))] workers: [maxprocesses] is the
    capacity of the result queue and nothing else, and any other value of it
    that selects the multi-process mode starts the same workers and gives the
    same outcome. *)
Theorem worker_count_ignores_maxprocesses (ts : TimeSeries) (stride : Qc)
    (fftlength fftstride : option Qc)
    (method : string) (window : option Window) (plan : option Plan)
    (maxprocesses minprocesssize : Z) (finish : nat → Qc) (nsteps : Z) :
  let run := from_timeseries ts stride fftlength fftstride method window plan
               maxprocesses minprocesssize finish in
  floordiv (Qc_of_Z (ts_size ts)) (stride * ts_sample_rate ts)%Qc = Returns nsteps →
  maxprocesses ≠ 1 → nsteps ≠ 0 → minprocesssize ≠ 0 →
  Z.of_nat (length (run_started run)) = Z.max 1 (nsteps / minprocesssize)
  ∧ run_queue run = Some maxprocesses
  ∧ ∀ maxprocesses',
      maxprocesses' ≠ 1 →
      let run' := from_timeseries ts stride fftlength fftstride method window plan
                    maxprocesses' minprocesssize finish in
      run_started run' = run_started run ∧ run_result run' = run_result run.
Proof.
  intros run Hn Hmp Hn0 Hm. unfold run.
  rewrite (from_timeseries_dispatch _ _ _ _ _ _ _ _ _ _ nsteps) by done.
  cbn [run_started run_queue run_result]. split; [|split; [done|]].
  - unfold worker_slices. rewrite length_fmap. unfold range. rewrite length_seqZ. lia.
  - intros mp' Hmp'.
    rewrite (from_timeseries_dispatch _ _ _ _ _ _ _ _ _ _ nsteps) by done.
    done.
Qed.

End Claims.

(** ** The claims at concrete inputs *)

Section Examples.

Local Existing Instance text_carriers.
Local Existing Instance probe.

Lemma ceil_whole (z : Z) : ceil (Qc_of_Z z) = z.
Proof. unfold ceil. simpl. apply Qceiling_Z. Qed.

Lemma probe_whole_index : whole_index.
Proof.
  intros z. cbn [to_index probe]. unfold int.
  case_decide; [apply ceil_whole|apply floor_whole].
Qed.

Lemma probe_psd_bins : psd_bins.
Proof. intros t fl fs m w p. cbn [psd probe]. by rewrite length_replicate. Qed.


(** C3, at the scenario of the specification: 1000 samples at 100 Hz with a
    stride of 2 s and an FFT length of 1 s give an output of shape (5, 51),
    with five rows of 51 bins. *)
Lemma builder_shape_witness :
  ∃ out,
    _from_timeseries ten_seconds (Qc_of_Z 2) (Some (Qc_of_Z 1)) None "welch" None None
    = Returns out
    ∧ sg_shape out = (5, 51)
    ∧ Z.of_nat (length (sg_rows out)) = 5
    ∧ Forall (λ row, Z.of_nat (length row) = 51) (sg_rows out).
Proof.
  destruct (builder_shape ten_seconds (Qc_of_Z 2) (Some (Qc_of_Z 1)) None
              "welch" None None) as (out & Hout & _ & _ & Hshape & Hrows & Hwidth).
  - exact probe_psd_bins.
  - reflexivity.
  - reflexivity.
  - reflexivity.
  - exists out. split; [exact Hout|].
    split; [rewrite Hshape; vm_compute; reflexivity|].
    split; [rewrite Hrows; vm_compute; reflexivity|].
    exact Hwidth.
Defined.

(** C4, at a series of one second with a stride of two: the result has no
    rows and no unit, although the unit of the series divides by Hertz. *)
Lemma builder_empty_unit_unset_witness :
  unit_div (ts_unit (one_second "m")) Hertz = Some "m/Hz"%string
  ∧ ∃ out,
      _from_timeseries (one_second "m") (Qc_of_Z 2) None None "welch" None None
      = Returns out
      ∧ sg_rows out = [] ∧ sg_unit out = None.
Proof.
  split; [reflexivity|].
  destruct (builder_empty_unit_unset (one_second "m") (Qc_of_Z 2) None None
              "welch" None None) as (out & Hout & Hrows & _ & _ & _ & _ & Hunit).
  - vm_compute. discriminate.
  - vm_compute. discriminate.
  - vm_compute. reflexivity.
  - exists out. split; [exact Hout|]. split; [exact Hrows|exact Hunit].
Defined.



(** C1, counterexample.  Fourteen samples at 1 Hz with a stride of 1.5 s and
    [minprocesssize = 3]: the builder finds [int(14 // 1.5) = 9] strides and
    returns nine rows; the wrapper starts three workers on the samples
    [0:4.5], [4.5:9] and [9:13.5], which hold 4, 5 and 4 samples and give 2,
    3 and 2 rows, so that the joined result has seven rows.  And where [lal]
    is installed, the workers run with the window and plan that the wrapper
    generated, which the builder called with the caller's arguments never
    sees: with a collaborator whose spectra tell a window and a plan, the
    first bin is 19903 from the wrapper and 19900 from the builder. *)
Lemma parallel_differs_from_single :
  (∃ par single,
     run_result (from_timeseries fourteen_samples (Q2Qc (3 # 2)) None None
                   "welch" None None 2 3 (λ _, 0%Qc)) = Returns par
     ∧ _from_timeseries fourteen_samples (Q2Qc (3 # 2)) None None
         "welch" None None = Returns single
     ∧ length (sg_rows par) = 7%nat
     ∧ length (sg_rows single) = 9%nat)
  ∧ first_bin (run_result (@from_timeseries text_carriers lal_probe ten_seconds
                             (Qc_of_Z 2) (Some (Qc_of_Z 1)) None
                             "welch" None None 2 2 (λ _, 0%Qc)))
    = Some (19903 # 1)
  ∧ first_bin (@_from_timeseries text_carriers lal_probe ten_seconds
                 (Qc_of_Z 2) (Some (Qc_of_Z 1)) None "welch" None None)
    = Some (19900 # 1).
Proof.
  split; [|split; vm_compute; reflexivity].
  do 2 eexists. split; [vm_compute; reflexivity|].
  split; [vm_compute; reflexivity|]. split; reflexivity.
Qed.

(** C1 (amended), at the scenario of the specification: ten seconds at 100 Hz
    with a stride of 2 s, [maxprocesses = 2] and [minprocesssize = 2]. *)
Lemma parallel_matches_single_witness :
  ∃ par single,
    run_result (from_timeseries ten_seconds (Qc_of_Z 2) (Some (Qc_of_Z 1)) None
                  "welch" None None 2 2 (λ _, 0%Qc)) = Returns par
    ∧ _from_timeseries ten_seconds (Qc_of_Z 2) (Some (Qc_of_Z 1)) None
        "welch" None None = Returns single
    ∧ length (sg_rows par) = length (sg_rows single)
    ∧ sg_rows par = sg_rows single.
Proof.
  destruct (parallel_matches_single ten_seconds (Qc_of_Z 2) (Some (Qc_of_Z 1)) None
              "welch" None None 2 2 (λ _, 0%Qc) 200)
    as (par & single & Hpar & Hsingle & Hlen & Hrows).
  - exact probe_psd_bins.
  - exact probe_whole_index.
  - reflexivity.
  - reflexivity.
  - apply Qc_is_canon. reflexivity.
  - lia.
  - lia.
  - lia.
  - unfold lal_window, lal_plan in Hsingle. cbn [lal_importable probe] in Hsingle.
    exists par, single. split; [exact Hpar|]. split; [exact Hsingle|].
    split; [exact Hlen|exact Hrows].
Defined.

(** C2, counterexample.  At fourteen samples with a stride of 1.5 s and
    [minprocesssize = 3] the run counts [nsteps = 9]; its three workers
    return, and their sorted partial spectrograms hold seven rows: of the
    nine steps 0, 1.5, ..., 12 those at 3 s and at 12 s are missing.  And at
    fifteen samples with [minprocesssize = 5], where the stride divides the
    length of the series, [nsteps = 10] and the two partial spectrograms hold
    nine rows: the step at 6 s is missing. *)
Lemma partials_miss_steps :
  let stride := Q2Qc (3 # 2) in
  let worker := λ t, _from_timeseries t stride (Some stride) (Some stride)
                       "welch" None None in
  let run14 := from_timeseries fourteen_samples stride None None
                 "welch" None None 2 3 (λ _, 0%Qc) in
  let run15 := from_timeseries fifteen_samples stride None None
                 "welch" None None 2 5 (λ _, 0%Qc) in
  (floordiv (Qc_of_Z (ts_size fourteen_samples)) (stride * ts_sample_rate fourteen_samples)%Qc
   = Returns 9
   ∧ ∃ data,
       collect (λ _, 0%Qc) (worker <$> run_started run14) = Returns data
       ∧ run_result run14 = sort_and_join data
       ∧ this <$> time_axis (sort_on sg_epoch data) = [0 # 1; 3 # 2; 9 # 2; 6 # 1; 15 # 2; 9 # 1; 21 # 2]
       ∧ Z.of_nat (length (concat (sg_rows <$> sort_on sg_epoch data))) = 7)
  ∧ (floordiv (Qc_of_Z (ts_size fifteen_samples)) (stride * ts_sample_rate fifteen_samples)%Qc
     = Returns 10
     ∧ ∃ data,
         collect (λ _, 0%Qc) (worker <$> run_started run15) = Returns data
         ∧ run_result run15 = sort_and_join data
         ∧ this <$> time_axis (sort_on sg_epoch data) = [0 # 1; 3 # 2; 3 # 1; 9 # 2; 15 # 2; 9 # 1; 21 # 2; 12 # 1; 27 # 2]
         ∧ Z.of_nat (length (concat (sg_rows <$> sort_on sg_epoch data))) = 9).
Proof.
  cbv zeta. split.
  - split; [vm_compute; reflexivity|]. eexists.
    split; [vm_compute; reflexivity|]. split; [vm_compute; reflexivity|].
    split; vm_compute; reflexivity.
  - split; [vm_compute; reflexivity|]. eexists.
    split; [vm_compute; reflexivity|]. split; [vm_compute; reflexivity|].
    split; vm_compute; reflexivity.
Qed.

(** C2 (amended), at the scenario of the specification with the workers
    finishing in reverse order: the sorted partial spectrograms give the time
    steps 0, 2, 4, 6, 8 s. *)
Lemma partials_tile_time_axis_witness :
  let worker := λ t, _from_timeseries t (Qc_of_Z 2) (Some (Qc_of_Z 1)) (Some (Qc_of_Z 1))
                       "welch" None None in
  let run := from_timeseries ten_seconds (Qc_of_Z 2) (Some (Qc_of_Z 1)) None
               "welch" None None 2 2 (λ i, (- Qc_of_Z (Z.of_nat i))%Qc) in
  ∃ data,
    collect (λ i, (- Qc_of_Z (Z.of_nat i))%Qc) (worker <$> run_started run) = Returns data
    ∧ run_result run = sort_and_join data
    ∧ this <$> time_axis (sort_on sg_epoch data) = [0 # 1; 2 # 1; 4 # 1; 6 # 1; 8 # 1]
    ∧ Z.of_nat (length (concat (sg_rows <$> sort_on sg_epoch data))) = 5.
Proof.
  intros worker run.
  destruct (partials_tile_time_axis ten_seconds (Qc_of_Z 2) (Some (Qc_of_Z 1)) None
              "welch" None None 2 2 (λ i, (- Qc_of_Z (Z.of_nat i))%Qc) 200)
    as (data & Hdata & Hres & Haxis & Hlen).
  - exact probe_psd_bins.
  - exact probe_whole_index.
  - reflexivity.
  - reflexivity.
  - apply Qc_is_canon. reflexivity.
  - lia.
  - vm_compute. reflexivity.
  - lia.
  - lia.
  - exists data. split; [exact Hdata|]. split; [exact Hres|].
    split; [rewrite Haxis; vm_compute; reflexivity|exact Hlen].
Defined.

(** C6, counterexample: with eleven strides and [minprocesssize = 2] the
    wrapper starts five workers for [steps_per_proc = 3]; they are handed 3,
    3, 3, 2 and 0 strides, so the fourth of the five slices, which is not the
    last, does not hold [steps_per_proc] strides. *)
Lemma partition_short_before_last :
  let run := from_timeseries eleven_samples (Qc_of_Z 1) None None
               "welch" None None 2 2 (λ _, 0%Qc) in
  let steps_per_proc := ceil (Qc_of_Z 11 / Qc_of_Z (Z.max 1 (11 / 2)))%Qc in
  ts_size <$> run_started run = [3; 3; 3; 2; 0]
  ∧ steps_per_proc = 3
  ∧ ∃ i t, (i + 1 < length (run_started run))%nat
           ∧ run_started run !! i = Some t
           ∧ ts_size t ≠ steps_per_proc * 1.
Proof.
  intros run steps_per_proc. split; [vm_compute; reflexivity|].
  split; [vm_compute; reflexivity|].
  exists 3%nat. eexists. split; [vm_compute; lia|].
  split; [vm_compute; reflexivity|]. vm_compute. discriminate.
Qed.

(** C6 (amended), at the input of the counterexample. *)
Lemma partition_clipped_witness :
  let run := from_timeseries eleven_samples (Qc_of_Z 1) None None
               "welch" None None 2 2 (λ _, 0%Qc) in
  Z.of_nat (length (run_started run)) = 5
  ∧ concat (ts_data <$> run_started run) = ts_data eleven_samples.
Proof.
  intros run.
  destruct (partition_clipped eleven_samples (Qc_of_Z 1) None None
              "welch" None None 2 2 (λ _, 0%Qc) 1) as (Hlen & _ & Hcat & _).
  - exact probe_whole_index.
  - apply Qc_is_canon. reflexivity.
  - lia.
  - vm_compute. reflexivity.
  - lia.
  - lia.
  - subst run. split; [exact Hlen|]. rewrite Hcat. vm_compute. reflexivity.
Defined.

(** C7.  With [maxprocesses = 1] the wrapper starts no worker and returns
    what the builder returns when it is called without a plan: a plan handed
    to the wrapper does not reach the builder.  With a collaborator that
    adds one to every bin when it is given a plan, the first bin of the
    result is 19900, and 19901 when the builder is called with the plan. *)
Example single_process_drops_plan :
  let run := from_timeseries ten_seconds (Qc_of_Z 2) (Some (Qc_of_Z 1)) None
               "welch" None (Some "plan"%string) 1 500 (λ _, 0%Qc) in
  run_started run = []
  ∧ run_result run
    = _from_timeseries ten_seconds (Qc_of_Z 2) (Some (Qc_of_Z 1)) (Some (Qc_of_Z 1))
        "welch" None None
  ∧ first_bin (run_result run) = Some (19900 # 1)
  ∧ first_bin (_from_timeseries ten_seconds (Qc_of_Z 2) (Some (Qc_of_Z 1)) None
                 "welch" None (Some "plan"%string)) = Some (19901 # 1).
Proof.
  intros run. subst run.
  rewrite (from_timeseries_single _ _ _ _ _ _ _ _ _ _ 5);
    [|vm_compute; reflexivity|by left].
  split; [reflexivity|]. split; [reflexivity|].
  split; vm_compute; reflexivity.
Qed.

(** C8.  For a series shorter than one stride the builder returns before it
    reaches the assignment of the unit: when the unit of the series divides
    by Hertz the unit of the result is not the quotient, and when the
    quotient is undefined it is not the inverse of Hertz either; the result
    has no unit assigned. *)
Example short_series_unit_not_assigned :
  unit_div (ts_unit (one_second "m")) Hertz = Some "m/Hz"%string
  ∧ unit_div (ts_unit (one_second EmptyString)) Hertz = None
  ∧ (∃ out,
       _from_timeseries (one_second "m") (Qc_of_Z 2) None None "welch" None None
       = Returns out ∧ sg_unit out = None)
  ∧ (∃ out,
       _from_timeseries (one_second EmptyString) (Qc_of_Z 2) None None "welch" None None
       = Returns out ∧ sg_unit out = None).
Proof.
  split; [reflexivity|]. split; [reflexivity|].
  split; eexists; (split; [vm_compute; reflexivity|reflexivity]).
Qed.

(** C9, at 3000 strides with [minprocesssize = 500] and [maxprocesses = 2]:
    six workers are started, more than [maxprocesses]. *)
Lemma worker_count_witness :
  let run := from_timeseries long_series (Qc_of_Z 1) None None
               "welch" None None 2 500 (λ _, 0%Qc) in
  Z.of_nat (length (run_started run)) = 6
  ∧ run_queue run = Some 2
  ∧ 2 < Z.of_nat (length (run_started run)).
Proof.
  intros run.
  destruct (worker_count_ignores_maxprocesses long_series (Qc_of_Z 1) None None
              "welch" None None 2 500 (λ _, 0%Qc) 3000) as (Hlen & Hq & _).
  - vm_compute. reflexivity.
  - lia.
  - lia.
  - lia.
  - fold run in Hlen, Hq. split; [exact Hlen|]. split; [exact Hq|]. rewrite Hlen. reflexivity.
Defined.

End Examples.

(** ** Further properties of the builder and of the wrapper *)

Section More.

Context `{Collaborators}.

Lemma sg_setitem_returns (out out' : Spectrogram) (step : Z) (data : list Qc) :
  0 ≤ sg_nfreqs out →
  sg_setitem out step data = Returns out' →
  sg_nfreqs out' = sg_nfreqs out
  ∧ sg_channel out' = sg_channel out ∧ sg_epoch out' = sg_epoch out
  ∧ sg_f0 out' = sg_f0 out ∧ sg_df out' = sg_df out ∧ sg_dt out' = sg_dt out
  ∧ sg_unit out' = sg_unit out
  ∧ length (sg_rows out') = length (sg_rows out)
  ∧ (Forall (λ row, Z.of_nat (length row) = sg_nfreqs out) (sg_rows out) →
     Forall (λ row, Z.of_nat (length row) = sg_nfreqs out) (sg_rows out')).
Proof.
  intros Hnf. unfold sg_setitem. case_decide; [done|].
  case_decide as Hlen.
  - intros [= <-]. cbn. rewrite length_insert. repeat split; try done.
    intros Hrows. by apply Forall_insert.
  - destruct data as [|x [|??]]; try done.
    intros [= <-]. cbn. rewrite length_insert. repeat split; try done.
    intros Hrows. apply Forall_insert; [done|]. rewrite length_replicate. lia.
Qed.

Lemma for_each_setitem_returns (f : Z → list Qc) (l : list Z) (out out' : Spectrogram) :
  0 ≤ sg_nfreqs out →
  for_each (λ o step, sg_setitem o step (f step)) out l = Returns out' →
  sg_nfreqs out' = sg_nfreqs out
  ∧ sg_channel out' = sg_channel out ∧ sg_epoch out' = sg_epoch out
  ∧ sg_f0 out' = sg_f0 out ∧ sg_df out' = sg_df out ∧ sg_dt out' = sg_dt out
  ∧ sg_unit out' = sg_unit out
  ∧ length (sg_rows out') = length (sg_rows out)
  ∧ (Forall (λ row, Z.of_nat (length row) = sg_nfreqs out) (sg_rows out) →
     Forall (λ row, Z.of_nat (length row) = sg_nfreqs out) (sg_rows out')).
Proof.
  revert out. induction l as [|step l IH]; intros out Hnf.
  - intros [= <-]. done.
  - cbn [for_each]. destruct (sg_setitem out step (f step)) as [mid| |] eqn:Hmid; [|done..].
    cbn [bind]. intros Hrest.
    apply sg_setitem_returns in Hmid as (E1 & E2 & E3 & E4 & E5 & E6 & E7 & E8 & E9); [|lia].
    apply IH in Hrest as (F1 & F2 & F3 & F4 & F5 & F6 & F7 & F8 & F9); [|lia].
    rewrite F1, F2, F3, F4, F5, F6, F7, F8. rewrite E1 in F9.
    repeat split; try done. intros Hrows. auto.
Qed.


(** X1.  Whatever spectra the PSD collaborator returns, a spectrogram that
    the builder returns is a full rectangle: it has [floor (L / (s * R))]
    rows, every row has [floor (f * R / 2) + 1] bins, and it carries the
    epoch and the channel of the series, [f0 = 0], [dt] the stride and
    [df = 1 / fftlength]. *)
Theorem builder_result_rectangular (ts : TimeSeries) (stride : Qc)
    (fftlength fftstride : option Qc)
    (method : string) (window : option Window) (plan : option Plan) (out : Spectrogram) :
  let fl := default stride fftlength in
  _from_timeseries ts stride fftlength fftstride method window plan = Returns out →
  floordiv (Qc_of_Z (ts_size ts)) (stride * ts_sample_rate ts)%Qc
    = Returns (Z.of_nat (length (sg_rows out)))
  ∧ sg_nfreqs out = nfreqs_of fl (ts_sample_rate ts)
  ∧ Forall (λ row, Z.of_nat (length row) = sg_nfreqs out) (sg_rows out)
  ∧ sg_epoch out = ts_epoch ts
  ∧ sg_channel out = ts_channel ts
  ∧ sg_f0 out = 0%Qc
  ∧ sg_dt out = stride
  ∧ sg_df out = (1 / fl)%Qc.
Proof.
  intros fl. unfold _from_timeseries. fold fl. unfold mbind, outcome_bind.
  unfold truediv. case_decide as Hfl; [done|]. cbn [bind].
  destruct (floordiv (Qc_of_Z (ts_size ts)) _) as [n| |] eqn:Hn; [|done..]. cbn [bind].
  rewrite (floordiv_ne_0 _ 2%Qc) by apply two_ne_0. cbn [bind].
  change (floor (fl * ts_sample_rate ts / 2)%Qc + 1) with (nfreqs_of fl (ts_sample_rate ts)).
  unfold zeros.
  destruct (decide (n < 0 ∨ nfreqs_of fl (ts_sample_rate ts) < 0)) as [Hdim|Hdim];
    cbn [bind]; [done|].
  set (start := Build_Spectrogram _ _ _ _ _ _ _ _ _).
  assert (Forall (λ row, Z.of_nat (length row) = sg_nfreqs start) (sg_rows start)) as Hrect.
  { subst start. cbn [sg_rows sg_nfreqs]. apply Forall_replicate.
    rewrite length_replicate. lia. }
  assert (Z.of_nat (length (sg_rows start)) = n) as Hrows.
  { subst start. cbn [sg_rows]. rewrite length_replicate. lia. }
  destruct (decide (n = 0)) as [Hz|Hz].
  - intros [= <-]. rewrite Hrows. done.
  - destruct (for_each _ start (range n)) as [filled| |] eqn:Hloop; cbn [bind]; [|done..].
    apply for_each_setitem_returns in Hloop
      as (F1 & F2 & F3 & F4 & F5 & F6 & F7 & F8 & F9); [|subst start; cbn [sg_nfreqs]; lia].
    specialize (F9 Hrect). rewrite <- F8 in Hrows.
    destruct (unit_div (ts_unit ts) Hertz); intros [= <-];
      cbn [sg_set_unit sg_rows sg_nfreqs sg_epoch sg_channel sg_f0 sg_dt sg_df];
      rewrite Hrows, F1, F2, F3, F4, F5, F6; done.
Qed.


Lemma floor_negative (x : Qc) : (x < 0)%Qc → floor x < 0.
Proof.
  intros Hx. unfold floor.
  rewrite Zlt_Qlt. eapply Qle_lt_trans; [apply Qfloor_le|]. exact Hx.
Qed.

Lemma Qcdiv_pos_neg (x y : Qc) : (0 < x)%Qc → (y < 0)%Qc → (x / y < 0)%Qc.
Proof.
  intros Hx Hy.
  assert (y ≠ 0%Qc) as Hy0 by (intros ->; by apply (Qclt_not_eq 0 0)).
  assert (0 < - y)%Qc as Hny.
  { apply Qclt_minus_iff in Hy. by rewrite Qcplus_0_l in Hy. }
  assert ((- y)%Qc ≠ 0%Qc) as Hny0 by (by apply Qc_pos_ne_0).
  replace (x / y)%Qc with (- (x / - y))%Qc by (field; done).
  apply Qclt_minus_iff. rewrite Qcplus_0_l, Qcopp_involutive.
  unfold Qcdiv. apply Qcmult_pos_pos; [done|]. by apply Qcinv_pos.
Qed.

(** X2.  A negative stride (or a negative sample rate) on a series that holds
    a sample makes the builder raise [ValueError]: the number of steps is
    negative, and the array of the result cannot be allocated. *)
Theorem builder_negative_stride_raises (ts : TimeSeries) (stride : Qc)
    (fftlength fftstride : option Qc)
    (method : string) (window : option Window) (plan : option Plan) :
  default stride fftlength ≠ 0%Qc →
  (stride * ts_sample_rate ts < 0)%Qc → 0 < ts_size ts →
  _from_timeseries ts stride fftlength fftstride method window plan = Raises ValueError.
Proof.
  intros Hfl Hs HL. unfold _from_timeseries, mbind, outcome_bind.
  rewrite truediv_ne_0 by done. cbn [bind].
  rewrite (floordiv_ne_0 _ (stride * ts_sample_rate ts)%Qc)
    by (intros E; rewrite E in Hs; by apply (Qclt_not_eq 0 0)).
  cbn [bind]. rewrite (floordiv_ne_0 _ 2%Qc) by apply two_ne_0. cbn [bind].
  unfold zeros. rewrite decide_True; [done|]. left.
  apply floor_negative, Qcdiv_pos_neg; [|done]. by apply Qc_of_Z_pos.
Qed.

(** X3.  In multi-process mode [minprocesssize = 0] makes the wrapper raise
    [ZeroDivisionError] after it has created the result queue and before it
    starts any worker; in single-process mode [minprocesssize] is not looked
    at, and the call is the same for every value of it. *)
Theorem zero_minprocesssize (ts : TimeSeries) (stride : Qc)
    (fftlength fftstride : option Qc)
    (method : string) (window : option Window) (plan : option Plan)
    (maxprocesses : Z) (finish : nat → Qc) (nsteps : Z) :
  floordiv (Qc_of_Z (ts_size ts)) (stride * ts_sample_rate ts)%Qc = Returns nsteps →
  (maxprocesses ≠ 1 ∧ nsteps ≠ 0 →
     from_timeseries ts stride fftlength fftstride method window plan maxprocesses 0 finish
     = {| run_started := []; run_queue := Some maxprocesses;
          run_result := Raises ZeroDivisionError |})
  ∧ (maxprocesses = 1 ∨ nsteps = 0 →
     ∀ minprocesssize,
       from_timeseries ts stride fftlength fftstride method window plan
         maxprocesses minprocesssize finish
       = from_timeseries ts stride fftlength fftstride method window plan
           maxprocesses 0 finish).
Proof.
  intros Hn. split.
  - intros [Hmp Hn0]. unfold from_timeseries. rewrite Hn.
    rewrite decide_False by tauto. done.
  - intros Hmode m.
    by rewrite !(from_timeseries_single _ _ _ _ _ _ _ _ _ _ nsteps).
Qed.

Lemma sort_on_nonempty {A} (key : A → Qc) (l : list A) :
  l ≠ [] → sort_on key l ≠ [].
Proof.
  intros Hl Hs. apply Hl. apply Permutation_nil_r. rewrite <- Hs.
  by rewrite sort_on_perm.
Qed.

(** X4.  Once the workers of a multi-process run are started, no exception
    reaches the caller: when the builder returns in every worker the run
    returns, and when it raises in some worker the run blocks for ever (the
    worker puts nothing on the queue the coordinator reads). *)
Theorem worker_failure_blocks (ts : TimeSeries) (stride : Qc)
    (fftlength fftstride : option Qc)
    (method : string) (window : option Window) (plan : option Plan)
    (maxprocesses minprocesssize : Z) (finish : nat → Qc) (nsteps : Z) :
  let fl := default stride fftlength in
  let fs := default fl fftstride in
  let nFFT := int (fl * ts_sample_rate ts)%Qc in
  let worker := λ t, _from_timeseries t stride (Some fl) (Some fs) method
                       (lal_window nFFT ts window) (lal_plan nFFT ts plan) in
  let run := from_timeseries ts stride fftlength fftstride method window plan
               maxprocesses minprocesssize finish in
  floordiv (Qc_of_Z (ts_size ts)) (stride * ts_sample_rate ts)%Qc = Returns nsteps →
  maxprocesses ≠ 1 → nsteps ≠ 0 → minprocesssize ≠ 0 →
  (Exists (λ t, ∃ e, worker t = Raises e) (run_started run) → run_result run = Blocks)
  ∧ (Forall (λ t, ∃ sg, worker t = Returns sg) (run_started run) →
     ∃ sg, run_result run = Returns sg).
Proof.
  intros fl fs nFFT worker run Hn Hmp Hn0 Hm. unfold run.
  rewrite (from_timeseries_dispatch _ _ _ _ _ _ _ _ _ _ nsteps) by done.
  cbn [run_started run_result]. fold fl fs nFFT. fold worker.
  set (slices := worker_slices _ _ _).
  assert (slices ≠ []) as Hne.
  { subst slices. unfold worker_slices, range. rewrite seqZ_cons by lia. done. }
  unfold collect. split.
  - intros Hex. rewrite (mapM_None_2 returned); [done|].
    rewrite Exists_fmap. eapply Exists_impl; [done|].
    intros t [e He]. cbn. by rewrite He.
  - intros Hall.
    assert (∃ specs, worker <$> slices = Returns <$> specs ∧ length specs = length slices)
      as (specs & -> & Hlen).
    { clear Hne. induction Hall as [|t l [sg Hsg] _ (specs & IH & Hlen)].
      - by exists [].
      - exists (sg :: specs). rewrite !fmap_cons, Hsg, IH. cbn. by rewrite Hlen. }
    rewrite mapM_fmap_Some by done. unfold mbind, outcome_bind. cbn [bind].
    unfold sort_and_join.
    destruct (sort_on sg_epoch _) as [|first rest] eqn:Hsort; [|by eexists].
    exfalso. revert Hsort. apply sort_on_nonempty.
    intros Hnil. apply (f_equal length) in Hnil.
    rewrite length_fmap in Hnil.
    pose proof (Permutation_length (sort_on_perm (λ p : nat * Spectrogram, finish p.1)
                  (imap pair specs))) as Hp.
    rewrite Hp, length_imap, Hlen in Hnil. by destruct slices.
Qed.


Lemma stride_series_of_slice (ts : TimeSeries) (S a b k : Z) :
  whole_index → ts_sample_rate ts ≠ 0%Qc → 0 < S → 0 ≤ a → 0 ≤ k → a + k + 1 ≤ b →
  stride_series (ts_getitem ts (Qc_of_Z (a * S)) (Qc_of_Z (b * S))) S k
  = stride_series ts S (a + k).
Proof.
  intros Hidx HR HS Ha Hk Hb. unfold stride_series, ts_getitem.
  cbn [ts_data ts_sample_rate ts_epoch ts_unit ts_channel ts_dtype].
  rewrite !Hidx, slice_take_drop by nia. f_equal.
  - rewrite skipn_firstn_comm, take_take, drop_drop.
    assert (k * S + S ≤ b * S - a * S) by nia.
    assert (0 ≤ k * S) by nia. assert (0 ≤ a * S) by nia.
    f_equal; [|f_equal]; lia.
  - replace (Qc_of_Z ((a + k) * S)) with (Qc_of_Z (a * S) + Qc_of_Z (k * S))%Qc.
    + field. done.
    + rewrite <- Z2Qc_inj_add. f_equal. lia.
Qed.

(** X5.  Building commutes with slicing at stride boundaries: when a stride
    holds [S] samples, the builder run on the slice of the strides [a] to
    [b - 1] of a series returns the rows [a] to [b - 1] of the spectrogram
    of the whole series, with the same bins, [dt] and [df], and with the
    epoch moved [a] strides on. *)
Theorem builder_of_slice (ts : TimeSeries) (stride : Qc) (fftlength fftstride : option Qc)
    (method : string) (window : option Window) (plan : option Plan) (S a b : Z) :
  let fl := default stride fftlength in
  psd_bins → whole_index →
  (0 < fl)%Qc → (0 < ts_sample_rate ts)%Qc →
  (stride * ts_sample_rate ts)%Qc = Qc_of_Z S → 0 < S →
  0 ≤ a ≤ b → b * S ≤ ts_size ts →
  ∃ out part,
    _from_timeseries ts stride fftlength fftstride method window plan = Returns out
    ∧ _from_timeseries (ts_getitem ts (Qc_of_Z (a * S)) (Qc_of_Z (b * S)))
        stride fftlength fftstride method window plan = Returns part
    ∧ sg_rows part = take (Z.to_nat (b - a)) (drop (Z.to_nat a) (sg_rows out))
    ∧ sg_epoch part = (sg_epoch out + Qc_of_Z a * stride)%Qc
    ∧ sg_nfreqs part = sg_nfreqs out
    ∧ sg_dt part = sg_dt out
    ∧ sg_df part = sg_df out.
Proof.
  intros fl Hpsd Hidx Hfl HR HS Hpos Hab Hb.
  assert (fl ≠ 0%Qc) as Hfl0 by (by apply Qc_pos_ne_0).
  assert (ts_sample_rate ts ≠ 0%Qc) as HR0 by (by apply Qc_pos_ne_0).
  assert (0 ≤ nfreqs_of fl (ts_sample_rate ts)) as Hnf
    by (apply Z.lt_le_incl; by apply nfreqs_of_pos).
  assert (b ≤ ts_size ts / S) as Hbn by (apply Z.div_le_lower_bound; lia).
  set (sub := ts_getitem ts (Qc_of_Z (a * S)) (Qc_of_Z (b * S))).
  assert (ts_size sub / S = b - a) as Hsub.
  { unfold sub, ts_size, ts_getitem. cbn [ts_data].
    rewrite !Hidx, slice_take_drop by nia.
    rewrite length_take, length_drop. unfold ts_size in Hb.
    replace (Z.of_nat _) with ((b - a) * S) by nia.
    by rewrite Z.div_mul by lia. }
  do 2 eexists. split; [|split].
  - by apply (builder_whole _ _ _ _ _ _ _ S).
  - by apply (builder_whole _ _ _ _ _ _ _ S).
  - cbn [sg_rows sg_epoch sg_nfreqs sg_dt sg_df]. fold fl. rewrite Hsub.
    split; [|split; [|done]].
    + apply list_eq. intros i. rewrite lookup_take, lookup_drop, !list_lookup_fmap.
      unfold range. case_decide as Hi.
      * rewrite !lookup_seqZ_lt by lia. cbn [fmap option_fmap option_map]. f_equal.
        unfold sub. rewrite stride_series_of_slice by (done || lia). do 2 f_equal. lia.
      * by rewrite lookup_seqZ_ge by lia.
    + unfold sub. cbn [ts_getitem ts_epoch]. f_equal.
      rewrite Z2Qc_inj_mul, <- HS. field. done.
Qed.

(** X6.  Recording further samples never changes the rows already there:
    when a stride holds [S] samples, the rows of the spectrogram of a series
    are the leading rows of the spectrogram of the series with more samples
    after its end, and epoch, bins, [dt] and [df] are the same. *)
Theorem builder_prefix_stable (ts : TimeSeries) (more : list Qc) (stride : Qc)
    (fftlength fftstride : option Qc)
    (method : string) (window : option Window) (plan : option Plan) (S : Z) :
  let fl := default stride fftlength in
  psd_bins → whole_index →
  (0 < fl)%Qc → (0 < ts_sample_rate ts)%Qc →
  (stride * ts_sample_rate ts)%Qc = Qc_of_Z S → 0 < S →
  ∃ out longer,
    _from_timeseries ts stride fftlength fftstride method window plan = Returns out
    ∧ _from_timeseries (ts_append ts more) stride fftlength fftstride method window plan
      = Returns longer
    ∧ sg_rows out `prefix_of` sg_rows longer
    ∧ sg_epoch longer = sg_epoch out
    ∧ sg_nfreqs longer = sg_nfreqs out
    ∧ sg_dt longer = sg_dt out
    ∧ sg_df longer = sg_df out.
Proof.
  intros fl Hpsd Hidx Hfl HR HS Hpos.
  assert (fl ≠ 0%Qc) as Hfl0 by (by apply Qc_pos_ne_0).
  assert (0 ≤ nfreqs_of fl (ts_sample_rate ts)) as Hnf
    by (apply Z.lt_le_incl; by apply nfreqs_of_pos).
  assert (0 ≤ ts_size ts / S) as Hn by (apply Z.div_pos; unfold ts_size; lia).
  assert (ts_size ts / S ≤ ts_size (ts_append ts more) / S) as Hle.
  { apply Z.div_le_mono; [lia|]. unfold ts_size, ts_append. cbn [ts_data].
    rewrite length_app. lia. }
  pose proof (Z.mul_div_le (ts_size ts) S Hpos) as Hfull.
  do 2 eexists. split; [|split].
  - by apply (builder_whole _ _ _ _ _ _ _ S).
  - by apply (builder_whole _ _ _ _ _ _ _ S).
  - cbn [sg_rows sg_epoch sg_nfreqs sg_dt sg_df]. split; [|done].
    replace (ts_size (ts_append ts more) / S)
      with (ts_size ts / S + (ts_size (ts_append ts more) / S - ts_size ts / S)) by lia.
    unfold range. rewrite seqZ_app, fmap_app by lia.
    eexists. f_equal. apply list_fmap_ext. intros i step Hstep.
    apply lookup_seqZ in Hstep as [-> Hi]. f_equal.
    unfold stride_series, ts_append.
    cbn [ts_data ts_sample_rate ts_epoch ts_unit ts_channel ts_dtype]. f_equal.
    unfold ts_size in Hfull, Hi.
    rewrite drop_app_le by nia.
    rewrite take_app_le; [done|]. rewrite length_drop. nia.
Qed.







(** X9.  When the spectra of the PSD collaborator do not depend on the plan,
    a call with [maxprocesses = 1], or on a series shorter than one stride,
    starts no worker, creates no queue, and is the call of the builder with
    the same series, stride, FFT length, FFT stride and method and with the
    window and the plan in force after the [lal] block. *)
Theorem single_process_delegation (ts : TimeSeries) (stride : Qc)
    (fftlength fftstride : option Qc)
    (method : string) (window : option Window) (plan : option Plan)
    (maxprocesses minprocesssize : Z) (finish : nat → Qc) (nsteps : Z) :
  let nFFT := int (default stride fftlength * ts_sample_rate ts)%Qc in
  (∀ t fl fs m w p p', psd t fl fs m w p = psd t fl fs m w p') →
  floordiv (Qc_of_Z (ts_size ts)) (stride * ts_sample_rate ts)%Qc = Returns nsteps →
  maxprocesses = 1 ∨ nsteps = 0 →
  from_timeseries ts stride fftlength fftstride method window plan
    maxprocesses minprocesssize finish
  = without_workers
      (_from_timeseries ts stride fftlength fftstride method
         (lal_window nFFT ts window) (lal_plan nFFT ts plan)).
Proof.
  intros nFFT Hpsd Hn Hmode.
  rewrite (from_timeseries_single _ _ _ _ _ _ _ _ _ _ nsteps) by done.
  f_equal. fold nFFT.
  rewrite (builder_plan_irrelevant _ _ _ _ _ _ None (lal_plan nFFT ts plan)) by (intros; apply Hpsd).
  reflexivity.
Qed.

End More.

(** ** The further properties at concrete inputs *)

Section MoreExamples.

Local Existing Instance text_carriers.
Local Existing Instance probe.

(** X1, at ten seconds at 100 Hz with a stride of 2 s and an FFT length of
    1 s: every row of the result has 51 bins. *)
Lemma builder_result_rectangular_witness :
  ∃ out,
    _from_timeseries ten_seconds (Qc_of_Z 2) (Some (Qc_of_Z 1)) None "welch" None None
    = Returns out
    ∧ sg_nfreqs out = 51
    ∧ Forall (λ row, Z.of_nat (length row) = sg_nfreqs out) (sg_rows out).
Proof.
  pose proof (builder_whole ten_seconds (Qc_of_Z 2) (Some (Qc_of_Z 1)) None
                "welch" None None 200 probe_psd_bins probe_whole_index) as Hout.
  cbn zeta in Hout.
  eexists. split.
  - apply Hout.
    + vm_compute. discriminate.
    + vm_compute. discriminate.
    + apply Qc_is_canon. reflexivity.
    + lia.
  - match goal with |- sg_nfreqs ?o = _ ∧ _ =>
      assert (_from_timeseries ten_seconds (Qc_of_Z 2) (Some (Qc_of_Z 1)) None
                "welch" None None = Returns o) as Hret
    end.
    { apply Hout.
      + vm_compute. discriminate.
      + vm_compute. discriminate.
      + apply Qc_is_canon. reflexivity.
      + lia. }
    destruct (builder_result_rectangular _ _ _ _ _ _ _ _ Hret) as (_ & Hnf & Hrect & _).
    split; [|exact Hrect]. rewrite Hnf. vm_compute. reflexivity.
Defined.


(** X2, at ten seconds at 100 Hz with a stride of -2 s. *)
Lemma builder_negative_stride_raises_witness :
  _from_timeseries ten_seconds (Qc_of_Z (-2)) None None "welch" None None
  = Raises ValueError.
Proof.
  apply (builder_negative_stride_raises ten_seconds (Qc_of_Z (-2)) None None
           "welch" None None).
  - vm_compute. discriminate.
  - reflexivity.
  - vm_compute. reflexivity.
Defined.

(** X3, at ten seconds at 100 Hz with a stride of 2 s, [maxprocesses = 2]
    and [minprocesssize = 0]. *)
Lemma zero_minprocesssize_witness :
  from_timeseries ten_seconds (Qc_of_Z 2) None None "welch" None None 2 0 (λ _, 0%Qc)
  = {| run_started := []; run_queue := Some 2; run_result := Raises ZeroDivisionError |}.
Proof.
  destruct (zero_minprocesssize ten_seconds (Qc_of_Z 2) None None "welch" None None
              2 (λ _, 0%Qc) 5) as [Hraise _].
  - vm_compute. reflexivity.
  - apply Hraise. split; lia.
Defined.

(** X4, at eleven samples at 1 Hz with a stride of -1 s, [maxprocesses = 2]
    and [minprocesssize = 2]: the one worker raises [ValueError], and the
    call blocks. *)
Lemma worker_failure_blocks_witness :
  run_result (from_timeseries eleven_samples (Qc_of_Z (-1)) None None
                "welch" None None 2 2 (λ _, 0%Qc)) = Blocks.
Proof.
  apply (worker_failure_blocks eleven_samples (Qc_of_Z (-1)) None None
           "welch" None None 2 2 (λ _, 0%Qc) (-11)).
  - vm_compute. reflexivity.
  - lia.
  - lia.
  - lia.
  - apply Exists_exists. eexists. split.
    + eapply list_elem_of_lookup_2 with (i := 0%nat). vm_compute. reflexivity.
    + exists ValueError. vm_compute. reflexivity.
Defined.

(** X5, at ten seconds at 100 Hz with a stride of 2 s: the strides 1 and 2
    (the samples 200 to 599). *)
Lemma builder_of_slice_witness :
  ∃ out part,
    _from_timeseries ten_seconds (Qc_of_Z 2) (Some (Qc_of_Z 1)) None "welch" None None
    = Returns out
    ∧ _from_timeseries (ts_getitem ten_seconds (Qc_of_Z 200) (Qc_of_Z 600))
        (Qc_of_Z 2) (Some (Qc_of_Z 1)) None "welch" None None = Returns part
    ∧ sg_rows part = take 2 (drop 1 (sg_rows out))
    ∧ sg_epoch part = (sg_epoch out + Qc_of_Z 1 * Qc_of_Z 2)%Qc.
Proof.
  destruct (builder_of_slice ten_seconds (Qc_of_Z 2) (Some (Qc_of_Z 1)) None
              "welch" None None 200 1 3)
    as (out & part & Hout & Hpart & Hrows & Hepoch & _).
  - exact probe_psd_bins.
  - exact probe_whole_index.
  - reflexivity.
  - reflexivity.
  - apply Qc_is_canon. reflexivity.
  - lia.
  - lia.
  - vm_compute. discriminate.
  - exists out, part. split; [exact Hout|]. split; [exact Hpart|].
    split; [exact Hrows|exact Hepoch].
Defined.

(** X6, at ten seconds at 100 Hz with a stride of 2 s and 250 further
    samples. *)
Lemma builder_prefix_stable_witness :
  ∃ out longer,
    _from_timeseries ten_seconds (Qc_of_Z 2) (Some (Qc_of_Z 1)) None "welch" None None
    = Returns out
    ∧ _from_timeseries (ts_append ten_seconds (replicate 250 0%Qc))
        (Qc_of_Z 2) (Some (Qc_of_Z 1)) None "welch" None None = Returns longer
    ∧ sg_rows out `prefix_of` sg_rows longer.
Proof.
  destruct (builder_prefix_stable ten_seconds (replicate 250 0%Qc) (Qc_of_Z 2)
              (Some (Qc_of_Z 1)) None "welch" None None 200)
    as (out & longer & Hout & Hlonger & Hrows & _).
  - exact probe_psd_bins.
  - exact probe_whole_index.
  - reflexivity.
  - reflexivity.
  - apply Qc_is_canon. reflexivity.
  - lia.
  - exists out, longer. split; [exact Hout|]. split; [exact Hlonger|exact Hrows].
Defined.



(** X10, at ten seconds of data without a unit name: the quotient by Hertz is
    undefined, and the unit of the result is the inverse of Hertz. *)
Lemma builder_unit_derived_witness :
  unit_div (ts_unit (ramp 1000 100 EmptyString)) Hertz = None
  ∧ ∃ out,
      _from_timeseries (ramp 1000 100 EmptyString) (Qc_of_Z 2) None None
        "welch" None None = Returns out
      ∧ sg_unit out = Some "1/Hz"%string.
Proof.
  split; [reflexivity|].
  destruct (builder_unit_derived (ramp 1000 100 EmptyString) (Qc_of_Z 2) None None
              "welch" None None) as (out & Hout & Hunit).
  - exact probe_psd_bins.
  - reflexivity.
  - reflexivity.
  - reflexivity.
  - vm_compute. reflexivity.
  - exists out. split; [exact Hout|exact Hunit].
Defined.

End MoreExamples.

Section PlainExamples.

Local Existing Instance text_carriers.
Local Existing Instance plain.

(** X9, with [lal] installed and a collaborator that ignores the plan: the
    call with [maxprocesses = 1] and neither window nor plan is the call of
    the builder with the generated window and plan. *)
Lemma single_process_delegation_witness :
  from_timeseries ten_seconds (Qc_of_Z 2) (Some (Qc_of_Z 1)) None "welch" None None
    1 500 (λ _, 0%Qc)
  = without_workers
      (_from_timeseries ten_seconds (Qc_of_Z 2) (Some (Qc_of_Z 1)) None "welch"
         (Some "window"%string) (Some "plan"%string)).
Proof.
  pose proof (single_process_delegation ten_seconds (Qc_of_Z 2) (Some (Qc_of_Z 1)) None
                "welch" None None 1 500 (λ _, 0%Qc) 5) as Hd.
  cbn zeta in Hd. unfold lal_window, lal_plan in Hd.
  cbn [lal_importable generate_lal_window generate_lal_fft_plan plain from_option] in Hd.
  apply Hd.
  - intros. reflexivity.
  - vm_compute. reflexivity.
  - by left.
Defined.

End PlainExamples.
